(** * Mattermost client: pagination and response normalization

    A shallow embedding of [MattermostClient] (client.ts): the channel and
    user list fetchers, the single-page post fetcher [getPostsForChannel]
    and the auto-paginating [getAllPostsForChannel].

    The network is a parameter: [fetch] is any function from a request and
    a network state to an outcome and a new network state.  Every request
    the client issues is recorded, so that statements about "how many
    requests" and "which page index" are statements about that record. *)

From stdpp Require Import base option list gmap strings pretty.

Local Open Scope string_scope.
Local Open Scope Z_scope.

#[local] Set Warnings "-register-all".

(** ** JavaScript values used by the client *)

(** A JS [number], restricted to the values the client computes with:
    integers, [Infinity] (the no-cap sentinel) and [NaN]. *)
Inductive number : Type :=
  | Num (z : Z)
  | Infinity
  | NaN.

#[global] Instance number_eq_dec : EqDecision number.
Proof. solve_decision. Defined.

(** [Boolean(n)]: [0] and [NaN] are falsy. *)
Definition truthy_number (n : number) : bool :=
  match n with
  | Num z => negb (z =? 0)
  | Infinity => true
  | NaN => false
  end.

(** [Boolean(s)]: the empty string is falsy. *)
Definition truthy_string (s : string) : bool :=
  match s with
  | EmptyString => false
  | String _ _ => true
  end.

(** [Boolean(x)] for an optional value: [undefined] is falsy. *)
Definition truthy_opt {A} (truthy : A -> bool) (o : option A) : bool :=
  match o with
  | Some a => truthy a
  | None => false
  end.

(** [n.toString()], for the integers JS prints with all their digits
    (below 10^21; from there on JS switches to the exponent form). *)
Definition number_toString (n : number) : string :=
  match n with
  | Num z => pretty z
  | Infinity => "Infinity"
  | NaN => "NaN"
  end.

(** [a < b] and [a >= b] on numbers; every comparison with [NaN] is false. *)
Definition number_lt (a b : number) : bool :=
  match a, b with
  | Num x, Num y => x <? y
  | Num _, Infinity => true
  | _, _ => false
  end.

Definition number_ge (a b : number) : bool :=
  match a, b with
  | Num x, Num y => y <=? x
  | Infinity, Num _ => true
  | Infinity, Infinity => true
  | _, _ => false
  end.

(** [a === b] on numbers; [NaN] equals nothing. *)
Definition number_seq (a b : number) : bool :=
  match a, b with
  | Num x, Num y => x =? y
  | Infinity, Infinity => true
  | _, _ => false
  end.

(** [l.length]. *)
Definition array_length {A} (l : list A) : number := Num (Z.of_nat (length l)).

(** [l.slice(0, end)]: a negative [end] counts from the back of the array,
    [NaN] is read as [0], [Infinity] as the length. *)
Definition slice0 {A} (l : list A) (e : number) : list A :=
  match e with
  | Num z =>
      if z <? 0 then take (Z.to_nat (Z.max (Z.of_nat (length l) + z) 0)) l
      else take (Z.to_nat z) l
  | Infinity => l
  | NaN => []
  end.

(** [s.includes(t)]. *)
Fixpoint includes (s t : string) : bool :=
  String.prefix t s ||
  match s with
  | EmptyString => false
  | String _ s' => includes s' t
  end.

(** A decoded JSON value, as [response.json()] resolves to. *)
Inductive json : Type :=
  | JNull
  | JBool (b : bool)
  | JNumber (n : number)
  | JString (s : string)
  | JArray (items : list json)
  | JObject (fields : list (string * json)).

(** [Array.isArray(v)]. *)
Definition isArray (v : json) : bool :=
  match v with
  | JArray _ => true
  | _ => false
  end.

(** [v.key]: property read on a decoded value ([None] is [undefined]). *)
Fixpoint assoc (key : string) (fields : list (string * json)) : option json :=
  match fields with
  | [] => None
  | (k, v) :: rest => if String.eqb k key then Some v else assoc key rest
  end.

Definition get_field (key : string) (v : json) : option json :=
  match v with
  | JObject fields => assoc key fields
  | _ => None
  end.

(** ** HTTP *)

(** A [URL] under construction: the address given to [new URL] and the
    pairs appended to [searchParams], in order of appending. *)
Record URL : Type := mkURL {
  href : string;
  searchParams : list (string * string)
}.

#[global] Instance URL_eq_dec : EqDecision URL.
Proof. solve_decision. Defined.

Definition append (u : URL) (name value : string) : URL :=
  {| href := href u; searchParams := searchParams u ++ [(name, value)] |}.

(** The arguments of one [fetch] call: the address and the headers. *)
Record Request : Type := mkRequest {
  req_url : URL;
  req_headers : list (string * string)
}.

#[global] Instance Request_eq_dec : EqDecision Request.
Proof. solve_decision. Defined.

(** What [fetch] resolves to.  [body_json] is what [response.json()]
    resolves to ([None]: the body does not parse, and [json()] rejects);
    [body_text] is what [response.text()] resolves to. *)
Record Response (B : Type) : Type := mkResponse {
  status : Z;
  statusText : string;
  body_text : string;
  body_json : option B
}.
Arguments mkResponse {B}.
Arguments status {B}.
Arguments statusText {B}.
Arguments body_text {B}.
Arguments body_json {B}.

(** [response.ok]: the status is in the range 200-299. *)
Definition ok {B} (r : Response B) : bool :=
  (200 <=? status r) && (status r <? 300).

(** What the client can throw. *)
Inductive error : Type :=
  | Error (message : string)     (* [new Error(message)], thrown by the client *)
  | FetchError (message : string) (* [fetch] rejected: transport failure *)
  | SyntaxError.                 (* [response.json()] rejected *)

#[global] Instance error_eq_dec : EqDecision error.
Proof. solve_decision. Defined.

(** ** The monad of the client: state, exceptions, and fuel for the loop *)

Inductive result (A : Type) : Type :=
  | Returned (a : A)
  | Thrown (e : error)
  | OutOfFuel.
Arguments Returned {A}.
Arguments Thrown {A}.
Arguments OutOfFuel {A}.

(** The state threaded through a call: the network, and the requests
    issued so far (oldest first). *)
Record World (W : Type) : Type := mkWorld {
  net : W;
  requests : list Request
}.
Arguments mkWorld {W}.
Arguments net {W}.
Arguments requests {W}.

Definition M (W A : Type) : Type := World W -> result A * World W.

Definition ret {W A} (a : A) : M W A := fun w => (Returned a, w).

Definition throw {W A} (e : error) : M W A := fun w => (Thrown e, w).

Definition bind {W A B} (m : M W A) (k : A -> M W B) : M W B :=
  fun w =>
    match m w with
    | (Returned a, w') => k a w'
    | (Thrown e, w') => (Thrown e, w')
    | (OutOfFuel, w') => (OutOfFuel, w')
    end.

Notation "x <- m ;; k" := (bind m (fun x => k))
  (at level 100, m at next level, right associativity).

(** [await fetch(url, { headers })]: one round trip, recorded. *)
Definition fetch_outcome (B : Type) : Type := (string + Response B)%type.

Definition do_fetch {W B} (fetch : Request -> W -> fetch_outcome B * W)
    (rq : Request) : M W (Response B) :=
  fun w =>
    let (o, n) := fetch rq (net w) in
    let w' := {| net := n; requests := requests w ++ [rq] |} in
    match o with
    | inl msg => (Thrown (FetchError msg), w')
    | inr r => (Returned r, w')
    end.

(** [await response.json()]. *)
Definition read_json {W B} (r : Response B) : M W B :=
  match body_json r with
  | Some b => ret b
  | None => throw SyntaxError
  end.

(** [try { m } catch (error) { handler(error) }]. *)
Definition try_catch {W A} (m : M W A) (handler : error -> M W A) : M W A :=
  fun w =>
    match m w with
    | (Thrown e, w') => handler e w'
    | other => other
    end.

(** The loop ran out of fuel: the model's stand-in for "still running". *)
Definition out_of_fuel {W A} : M W A := fun w => (OutOfFuel, w).

(** ** The client *)

(** What [loadConfig()] returns. *)
Record Config : Type := mkConfig {
  mattermostUrl : string;
  token : string;
  cfg_teamId : string
}.

Record MattermostClient : Type := mkClient {
  baseUrl : string;
  headers : list (string * string);
  teamId : string
}.

(** [constructor()]. *)
Definition new_MattermostClient (config : Config) : MattermostClient :=
  {| baseUrl := mattermostUrl config;
     teamId := cfg_teamId config;
     headers := [("Authorization", "Bearer " ++ token config);
                 ("Content-Type", "application/json")] |}.

(** [new URL(address)], with nothing appended yet.  The address is kept
    as it is written, not parsed: it stands for an address [new URL]
    accepts and leaves unchanged (one with a [?] or a [#] in it would come
    out with a query or a fragment of its own).  [searchParams] holds
    what the client appends. *)
Definition new_URL (address : string) : URL :=
  {| href := address; searchParams := [] |}.

(** [`${response.status} ${response.statusText}`]. *)
Definition status_line {B} (r : Response B) : string :=
  number_toString (Num (status r)) ++ " " ++ statusText r.

(** The transform applied to the decoded body by [getChannels],
    [getMyChannels] (field ["channels"]) and [getUsers] (field ["users"]):
    a bare array is wrapped, anything else is returned as it is. *)
Definition wrap_array (field : string) (raw : json) : json :=
  match raw with
  | JArray items =>
      JObject [(field, JArray items); ("total_count", JNumber (array_length items))]
  | _ => raw
  end.

Section Lists.
Context {W : Type}.
Variable fetch : Request -> W -> fetch_outcome json * W.
Variable this : MattermostClient.

Definition getChannels (limit page : option number) : M W json :=
  let limit := default (Num 100) limit in
  let page := default (Num 0) page in
  let url := new_URL (baseUrl this ++ "/teams/" ++ teamId this ++ "/channels") in
  let url := append url "page" (number_toString page) in
  let url := append url "per_page" (number_toString limit) in
  try_catch
    (response <- do_fetch fetch {| req_url := url; req_headers := headers this |};;
     if negb (ok response) then
       let errorText := body_text response in
       throw (Error ("Failed to get channels: " ++ status_line response
                     ++ " - " ++ errorText))
     else
       channelsArray <- read_json response;;
       ret (wrap_array "channels" channelsArray))
    (fun e => throw e).

Definition getUsers (limit page : option number) : M W json :=
  let limit := default (Num 100) limit in
  let page := default (Num 0) page in
  let url := new_URL (baseUrl this ++ "/users") in
  let url := append url "page" (number_toString page) in
  let url := append url "per_page" (number_toString limit) in
  response <- do_fetch fetch {| req_url := url; req_headers := headers this |};;
  if negb (ok response) then
    throw (Error ("Failed to get users: " ++ status_line response))
  else
    usersArray <- read_json response;;
    ret (wrap_array "users" usersArray).

Definition getMyChannels (limit page : option number) : M W json :=
  let limit := default (Num 100) limit in
  let page := default (Num 0) page in
  let url := new_URL (baseUrl this ++ "/users/me/channels") in
  let url := append url "page" (number_toString page) in
  let url := append url "per_page" (number_toString limit) in
  try_catch
    (response <- do_fetch fetch {| req_url := url; req_headers := headers this |};;
     if negb (ok response) then
       let errorText := body_text response in
       throw (Error ("Failed to get user channels: " ++ status_line response
                     ++ " - " ++ errorText))
     else
       channelsArray <- read_json response;;
       ret (wrap_array "channels" channelsArray))
    (fun e => throw e).
End Lists.

(** ** Posts *)

(** [PostsResponse]: the ids of one page in order, and the post of each id.
    The post type itself is a parameter: the client never looks inside. *)
Record PostsResponse (Post : Type) : Type := mkPostsResponse {
  order : list string;
  posts : gmap string Post;
  next_post_id : string;
  prev_post_id : string
}.
Arguments mkPostsResponse {Post}.
Arguments order {Post}.
Arguments posts {Post}.
Arguments next_post_id {Post}.
Arguments prev_post_id {Post}.

(** The [options] argument of [getPostsForChannel]. *)
Module PostsOptions.
Record t : Type := mk {
  since : option number;
  before : option string;
  after : option string
}.
End PostsOptions.

(** The [options] argument of [getAllPostsForChannel]. *)
Module AllPostsOptions.
Record t : Type := mk {
  since : option number;
  before : option string;
  after : option string;
  maxPosts : option number
}.
End AllPostsOptions.

(** [Max per page]. *)
Definition perPage : Z := 200.

(** The variables of the loop of [getAllPostsForChannel]. *)
Record LoopState (Post : Type) : Type := mkLoopState {
  allPosts : gmap string Post;
  allOrder : list string;
  page : Z;
  hasMore : bool
}.
Arguments mkLoopState {Post}.
Arguments allPosts {Post}.
Arguments allOrder {Post}.
Arguments page {Post}.
Arguments hasMore {Post}.

(** [a || b] on an optional number. *)
Definition number_or (a : option number) (b : number) : number :=
  match a with
  | Some n => if truthy_number n then n else b
  | None => b
  end.

Section Posts.
Context {W Post : Type}.
Variable fetch : Request -> W -> fetch_outcome (PostsResponse Post) * W.
Variable this : MattermostClient.

(** The address [getPostsForChannel] builds. *)
Definition posts_url (channelId : string) (limit page : number)
    (options : option PostsOptions.t) : URL :=
  let url := new_URL (baseUrl this ++ "/channels/" ++ channelId ++ "/posts") in
  let url := append url "page" (number_toString page) in
  let url := append url "per_page" (number_toString limit) in
  let url :=
    match options ≫= PostsOptions.since with
    | Some since =>
        if truthy_number since then append url "since" (number_toString since)
        else url
    | None => url
    end in
  let url :=
    match options ≫= PostsOptions.before with
    | Some before =>
        if truthy_string before then append url "before" before else url
    | None => url
    end in
  let url :=
    match options ≫= PostsOptions.after with
    | Some after =>
        if truthy_string after then append url "after" after else url
    | None => url
    end in
  url.

Definition getPostsForChannel (channelId : string) (limit page : option number)
    (options : option PostsOptions.t) : M W (PostsResponse Post) :=
  let limit := default (Num 30) limit in
  let page := default (Num 0) page in
  let url := posts_url channelId limit page options in
  response <- do_fetch fetch {| req_url := url; req_headers := headers this |};;
  if negb (ok response) then
    throw (Error ("Failed to get posts: " ++ status_line response))
  else
    read_json response.

Section Aggregation.
Variable channelId : string.
Variable options : option AllPostsOptions.t.

(** [const maxPosts = options?.maxPosts || Infinity]. *)
Definition cap : number :=
  number_or (options ≫= AllPostsOptions.maxPosts) Infinity.

(** The condition of the [while]. *)
Definition loop_guard (st : LoopState Post) : bool :=
  hasMore st && number_lt (array_length (allOrder st)) cap.

(** The filters handed to every page request:
    [{ since: options?.since, before: options?.before, after: options?.after }]. *)
Definition page_filters : option PostsOptions.t :=
  Some {| PostsOptions.since := options ≫= AllPostsOptions.since;
          PostsOptions.before := options ≫= AllPostsOptions.before;
          PostsOptions.after := options ≫= AllPostsOptions.after |}.

(** The page request of one iteration. *)
Definition fetch_page (st : LoopState Post) : M W (PostsResponse Post) :=
  getPostsForChannel channelId (Some (Num perPage)) (Some (Num (page st)))
    page_filters.

(** The state after the merge of one non-empty page: [Object.assign]
    lets the entries of the new page win, [push] appends its ids.
    [allPosts] holds the own properties of the object.  [Object.assign]
    stores an own property for every key of the page but ["__proto__"],
    which it hands to the setter of [Object.prototype]: what is said below
    of the posts a run returns is said of pages without that key
    ([plain_keys]). *)
Definition merge_page (st : LoopState Post) (response : PostsResponse Post)
    : LoopState Post :=
  {| allPosts := posts response ∪ allPosts st;
     allOrder := allOrder st ++ order response;
     hasMore := number_seq (array_length (order response)) (Num perPage);
     page := page st + 1 |}.

(** The [while] loop; [fuel] bounds the number of iterations. *)
Fixpoint while_loop (fuel : nat) (st : LoopState Post) : M W (LoopState Post) :=
  if loop_guard st then
    match fuel with
    | O => out_of_fuel
    | S fuel' =>
        response <- fetch_page st;;
        if number_seq (array_length (order response)) (Num 0) then
          (* hasMore = false; break *)
          ret {| allPosts := allPosts st; allOrder := allOrder st;
                 page := page st; hasMore := false |}
        else
          let st' := merge_page st response in
          if number_ge (array_length (allOrder st')) cap then
            (* break *)
            ret st'
          else
            while_loop fuel' st'
    end
  else ret st.

Definition getAllPostsForChannel (fuel : nat) : M W (PostsResponse Post) :=
  st <- while_loop fuel
          {| allPosts := ∅; allOrder := []; page := 0; hasMore := true |};;
  ret {| order := slice0 (allOrder st) cap;
         posts := allPosts st;
         next_post_id := "";
         prev_post_id := "" |}.
End Aggregation.
End Posts.

(** ** A scripted network

    The network state is the list of outcomes still to come: each [fetch]
    takes the next one, whatever the request; when none is left the
    transport fails. *)
Definition scripted {B} (rq : Request) (script : list (fetch_outcome B))
    : fetch_outcome B * list (fetch_outcome B) :=
  match script with
  | [] => (inl "network unreachable", [])
  | o :: script' => (o, script')
  end.

(** A successful response carrying [b]. *)
Definition ok_response {B} (b : B) : fetch_outcome B :=
  inr {| status := 200; statusText := "OK"; body_text := ""; body_json := Some b |}.

(** The ids a scripted outcome delivers to [getPostsForChannel]. *)
Definition outcome_ids {Post} (o : fetch_outcome (PostsResponse Post)) : list string :=
  match o with
  | inr r => if ok r then from_option order [] (body_json r) else []
  | inl _ => []
  end.

Definition script_ids {Post} (script : list (fetch_outcome (PostsResponse Post)))
    : list string :=
  concat (map outcome_ids script).

(** The request [getAllPostsForChannel] issues for page [p]. *)
Definition page_request (this : MattermostClient) (channelId : string)
    (options : option AllPostsOptions.t) (p : Z) : Request :=
  {| req_url := posts_url this channelId (Num perPage) (Num p) (page_filters options);
     req_headers := headers this |}.

(** Pages as a paginated collection serves them: every page but the last
    is full. *)
Fixpoint paginated {Post} (pages : list (PostsResponse Post)) : Prop :=
  match pages with
  | [] => True
  | p :: pages' =>
      (pages' = [] \/ length (order p) = Z.to_nat perPage) /\ paginated pages'
  end.

(** The requests for [n] consecutive pages from page [p] on. *)
Fixpoint page_requests (this : MattermostClient) (channelId : string)
    (options : option AllPostsOptions.t) (p : Z) (n : nat) : list Request :=
  match n with
  | O => []
  | S n' =>
      page_request this channelId options p
      :: page_requests this channelId options (p + 1) n'
  end.

(** What the loop variables are after the merge of [pages]. *)
Definition merge_pages {Post} (st : LoopState Post) (pages : list (PostsResponse Post))
    : LoopState Post :=
  foldl merge_page st pages.

(** What the loop variables are after the page that ends the run. *)
Definition last_page {Post} (st : LoopState Post) (response : PostsResponse Post)
    : LoopState Post :=
  if number_seq (array_length (order response)) (Num 0) then
    {| allPosts := allPosts st; allOrder := allOrder st;
       page := page st; hasMore := false |}
  else merge_page st response.

(** No post of the page sits under the key ["__proto__"]: the one key
    [Object.assign] does not store as an own property of its target. *)
Definition plain_keys {Post} (p : PostsResponse Post) : Prop :=
  posts p !! "__proto__" = None.

(** A page whose order is empty and whose posts are not. *)
Definition stray_page : PostsResponse nat :=
  {| order := [];
     posts := {["z" := 7%nat]};
     next_post_id := "";
     prev_post_id := "" |}.

(** Concrete pages for the examples: [n] ids counted from [k], each post
    being its own number. *)
Definition sample_ids (k n : nat) : list string :=
  map (fun i => pretty (k + i)%nat) (seq 0 n).

Definition sample_page (k n : nat) : PostsResponse nat :=
  {| order := sample_ids k n;
     posts := list_to_map (map (fun i => (pretty (k + i)%nat, (k + i)%nat)) (seq 0 n));
     next_post_id := "";
     prev_post_id := "" |}.

Definition sample_client : MattermostClient :=
  new_MattermostClient
    {| mattermostUrl := "https://chat.example.org/api/v4";
       token := "t0k3n";
       cfg_teamId := "team1" |}.

Definition start {B} (script : list (fetch_outcome B)) : World (list (fetch_outcome B)) :=
  {| net := script; requests := [] |}.

(** ** The single-entity fetchers

    [getChannel], [getPost], [getPostThread], [getUserProfile] and [getMe]
    hand [fetch] a plain string: an address with no search parameter.  The
    type of the decoded body is whatever the caller casts it to. *)

Section Entities.
Context {W B : Type}.
Variable fetch : Request -> W -> fetch_outcome B * W.
Variable this : MattermostClient.

Definition getChannel (channelId : string) : M W B :=
  let url := baseUrl this ++ "/channels/" ++ channelId in
  response <- do_fetch fetch {| req_url := new_URL url; req_headers := headers this |};;
  if negb (ok response) then
    throw (Error ("Failed to get channel: " ++ status_line response))
  else
    read_json response.

Definition getPost (postId : string) : M W B :=
  let url := baseUrl this ++ "/posts/" ++ postId in
  response <- do_fetch fetch {| req_url := new_URL url; req_headers := headers this |};;
  if negb (ok response) then
    throw (Error ("Failed to get post: " ++ status_line response))
  else
    read_json response.

Definition getPostThread (postId : string) : M W B :=
  let url := baseUrl this ++ "/posts/" ++ postId ++ "/thread" in
  response <- do_fetch fetch {| req_url := new_URL url; req_headers := headers this |};;
  if negb (ok response) then
    throw (Error ("Failed to get post thread: " ++ status_line response))
  else
    read_json response.

Definition getUserProfile (userId : string) : M W B :=
  let url := baseUrl this ++ "/users/" ++ userId in
  response <- do_fetch fetch {| req_url := new_URL url; req_headers := headers this |};;
  if negb (ok response) then
    throw (Error ("Failed to get user profile: " ++ status_line response))
  else
    read_json response.

Definition getMe : M W B :=
  let url := baseUrl this ++ "/users/me" in
  response <- do_fetch fetch {| req_url := new_URL url; req_headers := headers this |};;
  if negb (ok response) then
    throw (Error ("Failed to get current user: " ++ status_line response))
  else
    read_json response.
End Entities.

(** ** The tool handlers (tools/channels.ts) *)

(** [Boolean(v)] for a decoded value. *)
Definition truthy_json (v : json) : bool :=
  match v with
  | JNull => false
  | JBool b => b
  | JNumber n => truthy_number n
  | JString s => truthy_string s
  | JArray _ => true
  | JObject _ => true
  end.

(** [a || b] where [a] is a property read. *)
Definition json_or (a : option json) (b : json) : json :=
  match a with
  | Some v => if truthy_json v then v else b
  | None => b
  end.

(** [s || null] on an optional string ([None] is [null]). *)
Definition string_or_null (s : option string) : option string :=
  match s with
  | Some v => if truthy_string v then Some v else None
  | None => None
  end.

(** [isNaN(n)]. *)
Definition isNaN (n : number) : bool :=
  match n with
  | NaN => true
  | _ => false
  end.

(** What a handler can catch: what the client throws, and the errors the
    engine raises on a property read of [null] or [undefined], on a call
    of something that is no function, and on [toISOString] of an invalid
    date. *)
Inductive exception : Type :=
  | Client (e : error)
  | TypeError (expression : string)
  | RangeError (expression : string).

(** The [text] of a tool result is [JSON.stringify] of an object; the
    model keeps the object: the payload of a success, or [{ error }] and
    [{ error, raw_response }] of a failure. *)
Inductive ToolText (P : Type) : Type :=
  | Payload (p : P)
  | Failure (error : string) (raw_response : option json).
Arguments Payload {P}.
Arguments Failure {P}.

(** [{ content: [{ type: "text", text }], isError }]; a result without
    [isError] has it [false]. *)
Record ToolResult (P : Type) : Type := mkToolResult {
  text : ToolText P;
  isError : bool
}.
Arguments mkToolResult {P}.
Arguments text {P}.
Arguments isError {P}.

(** [l.map(f)] where [f] can throw: the first exception ends the map. *)
Fixpoint try_map {A B} (f : A -> exception + B) (l : list A) : exception + list B :=
  match l with
  | [] => inr []
  | a :: l' =>
      match f a with
      | inl x => inl x
      | inr b =>
          match try_map f l' with
          | inl x => inl x
          | inr bs => inr (b :: bs)
          end
      end
  end.

Module ListChannelsArgs.
Record t : Type := mk {
  limit : option number;
  page : option number
}.
End ListChannelsArgs.

(** One entry of [formattedChannels]; a field is [None] when the channel
    has no such property. *)
Module FormattedChannel.
Record t : Type := mk {
  id : option json;
  name : option json;
  display_name : option json;
  type : option json;
  purpose : option json;
  header : option json;
  total_msg_count : option json
}.
End FormattedChannel.

Module ListChannelsPayload.
Record t : Type := mk {
  channels : list FormattedChannel.t;
  total_count : json;
  page : number;
  per_page : number
}.
End ListChannelsPayload.

Module GetChannelHistoryArgs.
Record t : Type := mk {
  channel_id : string;
  limit : option number;
  page : option number;
  since_date : option string;
  before_post_id : option string;
  after_post_id : option string;
  get_all : option bool
}.
End GetChannelHistoryArgs.

(** One entry of [formattedPosts]. *)
Module FormattedPost.
Record t : Type := mk {
  id : option json;
  user_id : option json;
  message : option json;
  create_at : string;
  reply_count : option json;
  root_id : json
}.
End FormattedPost.

Module HistoryFilters.
Record t : Type := mk {
  since_date : option string;
  before_post_id : option string;
  after_post_id : option string;
  get_all : bool
}.
End HistoryFilters.

(** [page] and [per_page] are [None] for [null]. *)
Module HistoryPayload.
Record t : Type := mk {
  posts : list FormattedPost.t;
  total_posts : number;
  has_next : bool;
  has_prev : bool;
  page : option number;
  per_page : option number;
  filters : HistoryFilters.t
}.
End HistoryPayload.

(** The callback of [response.channels.map]: a property read of [null]
    throws, a property a value does not have reads as [undefined]. *)
Definition format_channel (channel : json) : exception + FormattedChannel.t :=
  match channel with
  | JNull => inl (TypeError "channel.id")
  | _ =>
      inr {| FormattedChannel.id := get_field "id" channel;
             FormattedChannel.name := get_field "name" channel;
             FormattedChannel.display_name := get_field "display_name" channel;
             FormattedChannel.type := get_field "type" channel;
             FormattedChannel.purpose := get_field "purpose" channel;
             FormattedChannel.header := get_field "header" channel;
             FormattedChannel.total_msg_count := get_field "total_msg_count" channel |}
  end.

(** [response.channels.map(...)]: only an array has [map]. *)
Definition format_channels (channels : json) : exception + list FormattedChannel.t :=
  match channels with
  | JArray items => try_map format_channel items
  | _ => inl (TypeError "response.channels.map")
  end.

Section Handlers.
Context {W : Type}.

(** The [message] of the errors the engine and the libraries make: not
    fixed by the language. *)
Variable engine_message : exception -> string.

(** [error instanceof Error ? error.message : String(error)]: everything
    thrown here is an [Error]. *)
Definition message_of (x : exception) : string :=
  match x with
  | Client (Error message) => message
  | Client (FetchError message) => message
  | _ => engine_message x
  end.

(** The result of the [catch] block. *)
Definition caught {P} (x : exception) : ToolResult P :=
  {| text := Failure (message_of x) None; isError := true |}.

Definition handleListChannels
    (fetch : Request -> W -> fetch_outcome json * W)
    (client : MattermostClient) (args : ListChannelsArgs.t)
    : M W (ToolResult ListChannelsPayload.t) :=
  let limit := number_or (ListChannelsArgs.limit args) (Num 100) in
  let page := number_or (ListChannelsArgs.page args) (Num 0) in
  fun w =>
    match getChannels fetch client (Some limit) (Some page) w with
    | (Returned response, w') =>
        if negb (truthy_json response)
           || negb (truthy_opt truthy_json (get_field "channels" response)) then
          (Returned {| text := Failure "API response missing channels array"
                                 (Some response);
                       isError := true |}, w')
        else
          match format_channels (default JNull (get_field "channels" response)) with
          | inr formattedChannels =>
              (Returned
                 {| text :=
                      Payload
                        {| ListChannelsPayload.channels := formattedChannels;
                           ListChannelsPayload.total_count :=
                             json_or (get_field "total_count" response)
                               (JNumber (Num 0));
                           ListChannelsPayload.page := page;
                           ListChannelsPayload.per_page := limit |};
                    isError := false |}, w')
          | inl x => (Returned (caught x), w')
          end
    | (Thrown e, w') => (Returned (caught (Client e)), w')
    | (OutOfFuel, w') => (OutOfFuel, w')
    end.

(** [new Date(s).getTime()] and [new Date(v).toISOString()] ([None]: the
    date is invalid and [toISOString] throws): the engine's. *)
Variable Date_getTime : string -> number.
Variable Date_toISOString : option json -> option string.

(** The callback of [response.order.map]. *)
Definition format_post (posts : gmap string json) (postId : string)
    : exception + FormattedPost.t :=
  match posts !! postId with
  | None => inl (TypeError "post.id")
  | Some JNull => inl (TypeError "post.id")
  | Some post =>
      match Date_toISOString (get_field "create_at" post) with
      | None => inl (RangeError "toISOString")
      | Some create_at =>
          inr {| FormattedPost.id := get_field "id" post;
                 FormattedPost.user_id := get_field "user_id" post;
                 FormattedPost.message := get_field "message" post;
                 FormattedPost.create_at := create_at;
                 FormattedPost.reply_count := get_field "reply_count" post;
                 FormattedPost.root_id := json_or (get_field "root_id" post) JNull |}
      end
  end.

(** The parse of [since_date], before any request. *)
Definition parse_since (since_date : option string) : exception + option number :=
  match since_date with
  | Some s =>
      if truthy_string s then
        let time := Date_getTime s in
        if isNaN time then
          inl (Client (Error ("Invalid date format: " ++ s
            ++ ". Use ISO 8601 format (e.g., '2025-12-18' or '2025-12-18T10:00:00Z')")))
        else inr (Some time)
      else inr None
  | None => inr None
  end.

Definition handleGetChannelHistory
    (fetch : Request -> W -> fetch_outcome (PostsResponse json) * W)
    (client : MattermostClient) (args : GetChannelHistoryArgs.t) (fuel : nat)
    : M W (ToolResult HistoryPayload.t) :=
  let channel_id := GetChannelHistoryArgs.channel_id args in
  let limit := default (Num 30) (GetChannelHistoryArgs.limit args) in
  let page := default (Num 0) (GetChannelHistoryArgs.page args) in
  let since_date := GetChannelHistoryArgs.since_date args in
  let before_post_id := GetChannelHistoryArgs.before_post_id args in
  let after_post_id := GetChannelHistoryArgs.after_post_id args in
  let get_all := default false (GetChannelHistoryArgs.get_all args) in
  fun w =>
    match parse_since since_date with
    | inl x => (Returned (caught x), w)
    | inr sinceTimestamp =>
        let call :=
          if get_all then
            getAllPostsForChannel fetch client channel_id
              (Some {| AllPostsOptions.since := sinceTimestamp;
                       AllPostsOptions.before := before_post_id;
                       AllPostsOptions.after := after_post_id;
                       AllPostsOptions.maxPosts := None |}) fuel
          else
            getPostsForChannel fetch client channel_id (Some limit) (Some page)
              (Some {| PostsOptions.since := sinceTimestamp;
                       PostsOptions.before := before_post_id;
                       PostsOptions.after := after_post_id |}) in
        match call w with
        | (Returned response, w') =>
            match try_map (format_post (posts response)) (order response) with
            | inr formattedPosts =>
                (Returned
                   {| text :=
                        Payload
                          {| HistoryPayload.posts := formattedPosts;
                             HistoryPayload.total_posts := array_length formattedPosts;
                             HistoryPayload.has_next :=
                               negb get_all && truthy_string (next_post_id response);
                             HistoryPayload.has_prev :=
                               negb get_all && truthy_string (prev_post_id response);
                             HistoryPayload.page := if get_all then None else Some page;
                             HistoryPayload.per_page := if get_all then None else Some limit;
                             HistoryPayload.filters :=
                               {| HistoryFilters.since_date := string_or_null since_date;
                                  HistoryFilters.before_post_id := string_or_null before_post_id;
                                  HistoryFilters.after_post_id := string_or_null after_post_id;
                                  HistoryFilters.get_all := get_all |} |};
                      isError := false |}, w')
            | inl x => (Returned (caught x), w')
            end
        | (Thrown e, w') => (Returned (caught (Client e)), w')
        | (OutOfFuel, w') => (OutOfFuel, w')
        end
    end.
End Handlers.

(** ** Pages and their posts *)

(** The page a scripted outcome delivers to [getPostsForChannel], if any. *)
Definition outcome_page {Post} (o : fetch_outcome (PostsResponse Post))
    : option (PostsResponse Post) :=
  match o with
  | inr r => if ok r then body_json r else None
  | inl _ => None
  end.

(** Every id of [order] has its post. *)
Definition covered {Post} (p : PostsResponse Post) : Prop :=
  forall id, id ∈ order p -> is_Some (posts p !! id).

(** A network that has a full page for every request. *)
Definition always_full (rq : Request) (n : unit)
    : fetch_outcome (PostsResponse nat) * unit :=
  (ok_response (sample_page 0 200), n).

(** A one-post page that has the id ["5"] again, with another post. *)
Definition overriding_page : PostsResponse nat :=
  {| order := ["5"];
     posts := {["5" := 999%nat]};
     next_post_id := "";
     prev_post_id := "" |}.

(** The request of [getChannels]. *)
Definition channels_request (this : MattermostClient) (limit page : number) : Request :=
  {| req_url :=
       {| href := baseUrl this ++ "/teams/" ++ teamId this ++ "/channels";
          searchParams := [("page", number_toString page);
                           ("per_page", number_toString limit)] |};
     req_headers := headers this |}.

(** An engine for the examples: its messages are empty, every date is
    invalid. *)
Definition no_message (x : exception) : string := "".
Definition no_time (s : string) : number := NaN.
Definition no_date (v : option json) : option string := None.

(** An engine for the examples whose dates are all valid. *)
Definition any_time (s : string) : number := Num 1734480000000.
Definition any_date (v : option json) : option string := Some "2024-12-18T00:00:00.000Z".

(** A page of decoded posts for the examples. *)
Definition sample_post (i : nat) : json :=
  JObject [("id", JString (pretty i)); ("user_id", JString "u1");
           ("message", JString "hello"); ("create_at", JNumber (Num 1734480000000));
           ("root_id", JString "")].

Definition sample_page_json (k n : nat) : PostsResponse json :=
  {| order := sample_ids k n;
     posts := list_to_map (map (fun i => (pretty (k + i)%nat, sample_post (k + i))) (seq 0 n));
     next_post_id := "";
     prev_post_id := "" |}.

(** A page the history handler can format: every id of [order] has its
    post, and no post is [null] or without a valid date. *)
Definition formattable (Date_toISOString : option json -> option string)
    (p : PostsResponse json) : Prop :=
  covered p /\
  forall id post, posts p !! id = Some post ->
    post <> JNull /\ is_Some (Date_toISOString (get_field "create_at" post)).

(** * Properties *)

(** ** Numbers, arrays and strings *)

Lemma number_lt_mono (a b : Z) (c : number) :
  a <= b -> number_lt (Num b) c = true -> number_lt (Num a) c = true.
Proof.
  destruct c as [z| |]; simpl; intros Hab H; try done.
  apply Z.ltb_lt in H. apply Z.ltb_lt. lia.
Qed.

Lemma number_lt_not_ge (a : Z) (c : number) :
  number_lt (Num a) c = true -> number_ge (Num a) c = false.
Proof.
  destruct c as [z| |]; simpl; intros H; try done.
  apply Z.ltb_lt in H. apply Z.leb_gt. lia.
Qed.

Lemma number_seq_length_0 {A} (l : list A) :
  number_seq (array_length l) (Num 0) = true <-> l = [].
Proof.
  unfold array_length; simpl. rewrite Z.eqb_eq.
  destruct l; simpl; split; intros; try done; lia.
Qed.

Lemma number_seq_length_perPage {A} (l : list A) :
  number_seq (array_length l) (Num perPage) = true <-> length l = Z.to_nat perPage.
Proof.
  unfold array_length, perPage; simpl. rewrite Z.eqb_eq. lia.
Qed.

Lemma array_length_app {A} (l k : list A) :
  array_length (l ++ k) = Num (Z.of_nat (length l) + Z.of_nat (length k)).
Proof. unfold array_length. rewrite length_app. f_equal. lia. Qed.

Lemma slice0_is_take {A} (l : list A) (e : number) :
  exists n, slice0 l e = take n l.
Proof.
  destruct e as [z| |]; simpl.
  - destruct (z <? 0); eauto.
  - exists (length l). by rewrite firstn_all.
  - by exists 0%nat.
Qed.

Lemma slice0_length_le {A} (l : list A) (n : Z) :
  0 <= n -> Z.of_nat (length (slice0 l (Num n))) <= n.
Proof.
  intros Hn. simpl. destruct (Z.ltb_spec n 0) as [?|_]; [lia|].
  rewrite length_take. lia.
Qed.

Lemma slice0_NoDup {A} (l : list A) (e : number) :
  NoDup l -> NoDup (slice0 l e).
Proof.
  intros Hl. destruct (slice0_is_take l e) as [n ->].
  eapply sublist_NoDup; [done | apply sublist_take].
Qed.

Lemma prefix_app_same (t b : string) : String.prefix t (t ++ b) = true.
Proof.
  induction t as [|c t IH]; [by destruct b|].
  change (String c t ++ b) with (String c (t ++ b)). cbn [String.prefix].
  destruct (Ascii.ascii_dec c c); [apply IH | congruence].
Qed.

Lemma string_app_assoc (a b c : string) : (a ++ b) ++ c = a ++ b ++ c.
Proof.
  induction a as [|x a IH]; [done|].
  change ((String x a ++ b) ++ c) with (String x ((a ++ b) ++ c)).
  by rewrite IH.
Qed.

Lemma includes_prefix (s t : string) : String.prefix t s = true -> includes s t = true.
Proof. intros H. destruct s; cbn [includes]; by rewrite H. Qed.

Lemma includes_app (a t b : string) : includes (a ++ t ++ b) t = true.
Proof.
  induction a as [|c a IH].
  - change ("" ++ t ++ b) with (t ++ b).
    apply includes_prefix, prefix_app_same.
  - change (String c a ++ t ++ b) with (String c (a ++ t ++ b)).
    cbn [includes]. rewrite IH. apply orb_true_r.
Qed.

Lemma includes_app_r (a t : string) : includes (a ++ t) t = true.
Proof.
  replace (a ++ t) with (a ++ t ++ "").
  - apply includes_app.
  - f_equal. induction t as [|c t IH]; [done|].
    change (String c t ++ "") with (String c (t ++ "")). by rewrite IH.
Qed.

(** ** The loop, over any network *)

Section LoopFacts.
Context {W Post : Type}.
Variable fetch : Request -> W -> fetch_outcome (PostsResponse Post) * W.
Variable this : MattermostClient.
Variable channelId : string.
Variable options : option AllPostsOptions.t.

Abbreviation loop := (while_loop fetch this channelId options).
Abbreviation guard := (loop_guard options).
Abbreviation next_page := (fetch_page fetch this channelId options).

Lemma while_loop_exit fuel st w :
  guard st = false -> loop fuel st w = (Returned st, w).
Proof. intros H. destruct fuel; simpl; by rewrite H. Qed.

Lemma while_loop_throw fuel st w e w' :
  guard st = true -> next_page st w = (Thrown e, w') ->
  loop (S fuel) st w = (Thrown e, w').
Proof. intros Hg Hf. simpl. rewrite Hg. unfold bind. by rewrite Hf. Qed.

Lemma while_loop_page fuel st w response w' :
  guard st = true -> next_page st w = (Returned response, w') ->
  loop (S fuel) st w =
    if number_seq (array_length (order response)) (Num 0) then
      (Returned {| allPosts := allPosts st; allOrder := allOrder st;
                   page := page st; hasMore := false |}, w')
    else if number_ge (array_length (allOrder (merge_page st response)))
              (cap options) then
      (Returned (merge_page st response), w')
    else loop fuel (merge_page st response) w'.
Proof.
  intros Hg Hf. simpl. rewrite Hg. unfold bind. rewrite Hf.
  by repeat case_match.
Qed.

(** The page fetch never runs out of fuel: only the loop can. *)
Lemma fetch_page_fuel st w : (next_page st w).1 <> OutOfFuel.
Proof.
  unfold fetch_page, getPostsForChannel, bind, do_fetch.
  destruct (fetch _ _) as [[msg|r] n]; simpl; [done|].
  destruct (ok r); simpl; [|done].
  unfold read_json. by destruct (body_json r).
Qed.

(** With a finite cap [n], [n] iterations always suffice: every page that
    lets the loop go on has added [perPage] ids. *)
Lemma while_loop_capped (n : Z) fuel st w :
  cap options = Num n ->
  n - Z.of_nat (length (allOrder st)) <= perPage * Z.of_nat fuel ->
  (loop fuel st w).1 <> OutOfFuel.
Proof.
  intros Hcap. revert st w.
  induction fuel as [|fuel IH]; intros st w Hlen.
  - destruct (guard st) eqn:Hg; [|by rewrite while_loop_exit].
    unfold loop_guard in Hg. rewrite Hcap in Hg.
    apply andb_true_iff in Hg as [_ Hg]. simpl in Hg.
    apply Z.ltb_lt in Hg. unfold perPage in Hlen. lia.
  - destruct (guard st) eqn:Hg; [|by rewrite while_loop_exit].
    pose proof (fetch_page_fuel st w) as Hfuel.
    destruct (next_page st w) as [[response | e |] w'] eqn:Hf; [| |done].
    + rewrite (while_loop_page _ _ _ _ _ Hg Hf).
      destruct (number_seq _ (Num 0)); [done|].
      destruct (number_ge _ _); [done|].
      destruct (hasMore (merge_page st response)) eqn:Hm.
      * apply IH. simpl in Hm. apply number_seq_length_perPage in Hm.
        simpl. rewrite length_app, Hm. unfold perPage in *. lia.
      * rewrite while_loop_exit; [done|]. unfold loop_guard. by rewrite Hm.
    + by rewrite (while_loop_throw _ _ _ _ _ Hg Hf).
Qed.

(** The record of requests only grows. *)
Lemma fetch_page_requests st w :
  requests (next_page st w).2
  = (requests w ++ [page_request this channelId options (page st)])%list.
Proof.
  unfold fetch_page, getPostsForChannel, bind, do_fetch.
  destruct (fetch _ _) as [[msg|r] n]; simpl; [done|].
  destruct (ok r); simpl; [|done].
  unfold read_json. by destruct (body_json r).
Qed.

End LoopFacts.

(** ** The loop, over a scripted network *)

Lemma page_requests_length this channelId options p n :
  length (page_requests this channelId options p n) = n.
Proof. revert p. induction n as [|n IH]; intros p; simpl; [done | by rewrite IH]. Qed.

Lemma page_requests_snoc this channelId options p n :
  page_requests this channelId options p (S n)
  = (page_requests this channelId options p n
     ++ [page_request this channelId options (p + Z.of_nat n)])%list.
Proof.
  revert p. induction n as [|n IH]; intros p.
  - simpl. by rewrite Z.add_0_r.
  - change (page_requests this channelId options p (S (S n)))
      with (page_request this channelId options p
            :: page_requests this channelId options (p + 1) (S n)).
    rewrite IH. cbn [page_requests app]. do 4 f_equal. lia.
Qed.

Section ScriptedLoop.
Context {Post : Type}.
Variable this : MattermostClient.
Variable channelId : string.
Variable options : option AllPostsOptions.t.

Abbreviation script := (list (fetch_outcome (PostsResponse Post))).
Abbreviation sloop := (while_loop (W:=script) scripted this channelId options).
Abbreviation sguard := (loop_guard (Post:=Post) options).
Abbreviation spage := (fetch_page (W:=script) scripted this channelId options).
Abbreviation srequest := (page_request this channelId options).
Abbreviation full := (fun p : PostsResponse Post => length (order p) = Z.to_nat perPage).

Lemma fetch_page_scripted_ok st p rest log :
  spage st {| net := ok_response p :: rest; requests := log |}
  = (Returned p, {| net := rest; requests := (log ++ [srequest (page st)])%list |}).
Proof. reflexivity. Qed.

(** Over a scripted network the outcome of a page fetch is decided by the
    next outcome of the script alone. *)
Lemma fetch_page_scripted st o rest log limit pg filters rest' log' :
  (spage st {| net := o :: rest; requests := log |}).1
  = (getPostsForChannel scripted this channelId limit pg filters
       {| net := o :: rest'; requests := log' |}).1.
Proof.
  unfold fetch_page, getPostsForChannel, bind, do_fetch; simpl.
  destruct o as [msg|r]; simpl; [done|].
  destruct (ok r); simpl; [|done].
  unfold read_json. by destruct (body_json r).
Qed.

Lemma merge_pages_allOrder (st : LoopState Post) pages :
  allOrder (merge_pages st pages)
  = (allOrder st ++ concat (map order pages))%list.
Proof.
  unfold merge_pages. revert st.
  induction pages as [|p pages IH]; intros st; simpl.
  - by rewrite app_nil_r.
  - rewrite IH. simpl. by rewrite <- app_assoc.
Qed.

Lemma merge_pages_page (st : LoopState Post) pages :
  page (merge_pages st pages) = page st + Z.of_nat (length pages).
Proof.
  unfold merge_pages. revert st.
  induction pages as [|p pages IH]; intros st; simpl; [lia|].
  rewrite IH. simpl. lia.
Qed.

Lemma merge_pages_allPosts (st : LoopState Post) pages :
  allPosts (merge_pages st pages)
  = foldl (fun m p => posts p ∪ m) (allPosts st) pages.
Proof.
  unfold merge_pages. revert st.
  induction pages as [|p pages IH]; intros st; simpl; [done|].
  by rewrite IH.
Qed.

Lemma merge_pages_hasMore (st : LoopState Post) pages :
  Forall full pages -> hasMore st = true -> hasMore (merge_pages st pages) = true.
Proof.
  intros Hfull. revert st. induction Hfull as [|p pages Hp _ IH]; intros st Hst.
  - done.
  - apply IH. simpl. by apply number_seq_length_perPage.
Qed.

Lemma concat_full_length (pages : list (PostsResponse Post)) :
  Forall full pages ->
  Z.of_nat (length (concat (map order pages))) = perPage * Z.of_nat (length pages).
Proof.
  induction 1 as [|p pages Hp _ IH]; simpl; [unfold perPage; lia|].
  rewrite length_app, Hp. unfold perPage in *. lia.
Qed.

(** Full pages below the cap are merged one after the other, each asked
    for with the page index of the previous request plus one. *)
Lemma while_loop_full_pages fs st rest log fuel :
  Forall full fs ->
  hasMore st = true ->
  number_lt (Num (Z.of_nat (length (allOrder st)) + perPage * Z.of_nat (length fs)))
    (cap options) = true ->
  sloop (length fs + fuel) st
    {| net := (map ok_response fs ++ rest)%list; requests := log |}
  = sloop fuel (merge_pages st fs)
      {| net := rest;
         requests := (log ++ page_requests this channelId options (page st)
                               (length fs))%list |}.
Proof.
  intros Hfull. revert st log.
  induction Hfull as [|p fs Hp _ IH]; intros st log Hst Hcap.
  - simpl. by rewrite app_nil_r.
  - assert (sguard st = true) as Hg.
    { unfold loop_guard. rewrite Hst. simpl.
      eapply number_lt_mono; [|exact Hcap]. unfold perPage. lia. }
    change (length (p :: fs) + fuel)%nat with (S (length fs + fuel)).
    change (map ok_response (p :: fs) ++ rest)%list
      with (ok_response p :: (map ok_response fs ++ rest)%list).
    rewrite (while_loop_page _ _ _ _ _ _ _ p _ Hg (fetch_page_scripted_ok _ _ _ _)).
    assert (number_seq (array_length (order p)) (Num 0) = false) as ->.
    { apply not_true_is_false. rewrite number_seq_length_0.
      intros E. rewrite E in Hp. done. }
    assert (number_ge (array_length (allOrder (merge_page st p))) (cap options)
            = false) as ->.
    { cbn [merge_page allOrder]. rewrite array_length_app.
      apply number_lt_not_ge.
      eapply number_lt_mono; [|exact Hcap].
      rewrite Hp. simpl length. unfold perPage. lia. }
    rewrite IH.
    + simpl. rewrite <- app_assoc. done.
    + simpl. by apply number_seq_length_perPage.
    + simpl. rewrite length_app, Hp.
      eapply number_lt_mono; [|exact Hcap].
      simpl length. unfold perPage. lia.
Qed.

(** A page that is not full ends the run: it is merged unless it is
    empty, and nothing is asked for after it. *)
Lemma while_loop_last_page s st rest log fuel :
  sguard st = true ->
  length (order s) <> Z.to_nat perPage ->
  sloop (S fuel) st {| net := ok_response s :: rest; requests := log |}
  = (Returned (last_page st s),
     {| net := rest; requests := (log ++ [srequest (page st)])%list |}).
Proof.
  intros Hg Hs.
  rewrite (while_loop_page _ _ _ _ _ _ _ s _ Hg (fetch_page_scripted_ok _ _ _ _)).
  unfold last_page. destruct (number_seq _ (Num 0)); [done|].
  destruct (number_ge _ _); [done|].
  apply while_loop_exit. unfold loop_guard. cbn [merge_page hasMore].
  assert (number_seq (array_length (order s)) (Num perPage) = false) as ->; [|done].
  apply not_true_is_false. by rewrite number_seq_length_perPage.
Qed.
End ScriptedLoop.

Section ScriptedRuns.
Context {Post : Type}.
Variable this : MattermostClient.
Variable channelId : string.
Variable options : option AllPostsOptions.t.

Abbreviation rloop := (while_loop (W:=list (fetch_outcome (PostsResponse Post)))
                         scripted this channelId options).
Abbreviation rpage := (fetch_page (W:=list (fetch_outcome (PostsResponse Post)))
                         scripted this channelId options).

Lemma fetch_page_scripted_returned st sc log response w' :
  rpage st {| net := sc; requests := log |} = (Returned response, w') ->
  exists o, sc = o :: net w' /\ outcome_ids o = order response.
Proof.
  unfold fetch_page, getPostsForChannel, bind, do_fetch; simpl.
  destruct sc as [|[msg|r] rest]; simpl; try done.
  destruct (ok r) eqn:Hok; simpl; [|done].
  unfold read_json. destruct (body_json r) as [b|] eqn:Hb; simpl; [|done].
  unfold ret. intros [= -> <-]. exists (inr r). split; [done|].
  unfold outcome_ids. by rewrite Hok, Hb.
Qed.

(** Whatever the script, what the loop has collected is what the outcomes
    it consumed delivered, in order. *)
Lemma while_loop_scripted_ids fuel st sc log st' w' :
  rloop fuel st {| net := sc; requests := log |} = (Returned st', w') ->
  exists used,
    sc = (used ++ net w')%list /\
    allOrder st' = (allOrder st ++ script_ids used)%list.
Proof.
  revert st sc log st' w'. induction fuel as [|fuel IH]; intros st sc log st' w'.
  - simpl. destruct (loop_guard options st); [done|].
    intros [= <- <-]. exists []. by rewrite app_nil_r.
  - destruct (loop_guard options st) eqn:Hg.
    2:{ rewrite while_loop_exit by done. intros [= <- <-].
        exists []. by rewrite app_nil_r. }
    destruct (rpage st {| net := sc; requests := log |})
      as [[response | e |] w1] eqn:Hf.
    + rewrite (while_loop_page _ _ _ _ _ _ _ _ _ Hg Hf).
      destruct (fetch_page_scripted_returned _ _ _ _ _ Hf) as (o & -> & Hids).
      destruct (number_seq _ (Num 0)) eqn:Hempty.
      { intros [= <- <-]. exists [o]. split; [done|].
        apply number_seq_length_0 in Hempty.
        unfold script_ids. simpl. by rewrite Hids, Hempty, !app_nil_r. }
      destruct (number_ge _ _).
      { intros [= <- <-]. exists [o]. split; [done|].
        unfold script_ids. simpl. by rewrite Hids, app_nil_r. }
      destruct w1 as [sc1 log1]. intros Hrun.
      destruct (IH _ _ _ _ _ Hrun) as (used & Hsc & Hord). simpl in Hsc.
      exists (o :: used). split; [simpl; by rewrite Hsc|].
      rewrite Hord. unfold script_ids. simpl.
      by rewrite Hids, <- app_assoc.
    + by rewrite (while_loop_throw _ _ _ _ _ _ _ _ _ Hg Hf).
    + by pose proof (fetch_page_fuel scripted this channelId options st
                       {| net := sc; requests := log |}) as Hfuel;
        rewrite Hf in Hfuel.
Qed.

(** Over a paginated collection that holds at least [n] ids, the loop
    stops with at least [n] ids collected, the first [n] of them being
    the first [n] of the collection. *)
Lemma while_loop_paginated (n : Z) ps st rest log fuel :
  cap options = Num n ->
  paginated ps ->
  hasMore st = true ->
  Z.of_nat (length (allOrder st)) < n ->
  n <= Z.of_nat (length (allOrder st)) + Z.of_nat (length (concat (map order ps))) ->
  (length ps <= fuel)%nat ->
  exists st' w',
    rloop fuel st {| net := (map ok_response ps ++ rest)%list; requests := log |}
    = (Returned st', w') /\
    n <= Z.of_nat (length (allOrder st')) /\
    take (Z.to_nat n) (allOrder st')
    = take (Z.to_nat n) (allOrder st ++ concat (map order ps))%list.
Proof.
  intros Hcap. revert st log fuel.
  induction ps as [|p ps IH]; intros st log fuel Hpag Hst Hlt Hge Hfuel.
  - simpl in Hge. lia.
  - destruct fuel as [|fuel]; [simpl in Hfuel; lia|].
    destruct Hpag as [Hp Hpag].
    assert (loop_guard options st = true) as Hg.
    { unfold loop_guard. rewrite Hst, Hcap. simpl. by apply Z.ltb_lt. }
    change (map ok_response (p :: ps) ++ rest)%list
      with (ok_response p :: (map ok_response ps ++ rest)%list).
    rewrite (while_loop_page _ _ _ _ _ _ _ p _ Hg (fetch_page_scripted_ok _ _ _ _ _ _ _)).
    simpl in Hge. rewrite length_app in Hge.
    destruct (number_seq _ (Num 0)) eqn:Hempty.
    { apply number_seq_length_0 in Hempty. rewrite Hempty in *.
      destruct Hp as [-> | Hp]; [simpl in Hge; lia | done]. }
    cbn [merge_page allOrder]. rewrite array_length_app, Hcap.
    destruct (number_ge _ _) eqn:Hcapped; simpl in Hcapped.
    + apply Z.leb_le in Hcapped.
      eexists _, _. split; [done|]. cbn [merge_page allOrder].
      rewrite length_app. split; [lia|].
      cbn [map concat]. rewrite (app_assoc (allOrder st)).
      rewrite (take_app_le (allOrder st ++ order p)); [done|].
      rewrite length_app. lia.
    + apply Z.leb_gt in Hcapped.
      destruct Hp as [-> | Hp]; [simpl in Hge; lia|].
      destruct (IH (merge_page st p) (log ++ [page_request this channelId options (page st)])%list fuel)
        as (st' & w' & Hrun & Hn & Htake).
      * done.
      * simpl. by apply number_seq_length_perPage.
      * simpl. rewrite length_app. lia.
      * simpl. rewrite length_app. lia.
      * simpl in Hfuel. lia.
      * exists st', w'. split; [done|]. split; [done|].
        rewrite Htake. cbn [merge_page allOrder map concat].
        by rewrite <- app_assoc.
Qed.
End ScriptedRuns.

(** ** Any network is a script

    A run over any network is the run over the script of the outcomes that
    network delivers: the client looks at the network through the outcomes
    of its fetches only.  So what holds of every scripted run holds of
    every run. *)

Section AnyNetwork.
Context {W Post : Type}.
Variable fetch : Request -> W -> fetch_outcome (PostsResponse Post) * W.
Variable this : MattermostClient.
Variable channelId : string.
Variable options : option AllPostsOptions.t.

Lemma fetch_page_outcome st (w : World W) :
  fetch_page fetch this channelId options st w
  = let rq := page_request this channelId options (page st) in
    ((fetch_page scripted this channelId options st
        {| net := [(fetch rq (net w)).1]; requests := [] |}).1,
     {| net := (fetch rq (net w)).2; requests := (requests w ++ [rq])%list |}).
Proof.
  unfold fetch_page, getPostsForChannel, bind, do_fetch, page_request; simpl.
  destruct (fetch _ _) as [[msg|r] n]; simpl; [done|].
  destruct (ok r); simpl; [|done].
  unfold read_json. by destruct (body_json r).
Qed.

Lemma fetch_page_scripted_outcome st o rest log :
  fetch_page (Post:=Post) scripted this channelId options st
    {| net := o :: rest; requests := log |}
  = ((fetch_page scripted this channelId options st
        {| net := [o]; requests := [] |}).1,
     {| net := rest;
        requests := (log ++ [page_request this channelId options (page st)])%list |}).
Proof.
  unfold fetch_page, getPostsForChannel, bind, do_fetch, page_request; simpl.
  destruct o as [msg|r]; simpl; [done|].
  destruct (ok r); simpl; [|done].
  unfold read_json. by destruct (body_json r).
Qed.

Lemma while_loop_as_scripted fuel st (w : World W) :
  exists sc new,
    requests (while_loop fetch this channelId options fuel st w).2
    = (requests w ++ new)%list /\
    forall rest log,
      while_loop scripted this channelId options fuel st
        {| net := (sc ++ rest)%list; requests := log |}
      = ((while_loop fetch this channelId options fuel st w).1,
         {| net := rest; requests := (log ++ new)%list |}).
Proof.
  revert st w. induction fuel as [|fuel IH]; intros st w.
  - exists [], []. simpl. destruct (loop_guard options st); simpl;
      rewrite app_nil_r; (split; [done|]); intros rest log;
      unfold out_of_fuel, ret; by rewrite app_nil_r.
  - destruct (loop_guard options st) eqn:Hg.
    2:{ exists [], []. rewrite while_loop_exit by done. cbn [fst snd].
        rewrite app_nil_r. split; [done|]. intros rest log.
        rewrite while_loop_exit by done. by rewrite app_nil_r. }
    pose proof (fetch_page_outcome st w) as Hf. cbv zeta in Hf.
    set (rq := page_request this channelId options (page st)) in *.
    set (o := (fetch rq (net w)).1) in *.
    set (w1 := {| net := (fetch rq (net w)).2; requests := _ |}) in *.
    pose proof (fetch_page_fuel scripted this channelId options st
                  {| net := [o]; requests := [] |}) as Hfuel.
    destruct (fetch_page scripted this channelId options st
                {| net := [o]; requests := [] |}).1
      as [response | e |] eqn:Ho; [| |done].
    + rewrite (while_loop_page _ _ _ _ _ _ _ _ _ Hg Hf).
      destruct (IH (merge_page st response) w1) as (sc & new & Hreq & Hsc).
      destruct (number_seq (array_length (order response)) (Num 0)) eqn:Hempty;
        [|destruct (number_ge (array_length (allOrder (merge_page st response)))
                     (cap options)) eqn:Hcapped].
      * exists [o], [rq]. split; [done|]. intros rest log.
        rewrite (while_loop_page _ _ _ _ _ _ _ response _ Hg
                   (eq_trans (fetch_page_scripted_outcome st o rest log)
                      (f_equal (fun x => (x, _)) Ho))).
        by rewrite Hempty.
      * exists [o], [rq]. split; [done|]. intros rest log.
        rewrite (while_loop_page _ _ _ _ _ _ _ response _ Hg
                   (eq_trans (fetch_page_scripted_outcome st o rest log)
                      (f_equal (fun x => (x, _)) Ho))).
        by rewrite Hempty, Hcapped.
      * exists (o :: sc), (rq :: new). split.
        { rewrite Hreq. unfold w1. simpl. by rewrite <- app_assoc. }
        intros rest log.
        change ((o :: sc) ++ rest)%list with (o :: (sc ++ rest)%list).
        rewrite (while_loop_page _ _ _ _ _ _ _ response _ Hg
                   (eq_trans (fetch_page_scripted_outcome st o (sc ++ rest) log)
                      (f_equal (fun x => (x, _)) Ho))).
        rewrite Hempty, Hcapped, Hsc. by rewrite <- app_assoc.
    + rewrite (while_loop_throw _ _ _ _ _ _ _ _ _ Hg Hf).
      exists [o], [rq]. split; [done|]. intros rest log.
      by rewrite (while_loop_throw _ _ _ _ _ _ _ e _ Hg
                    (eq_trans (fetch_page_scripted_outcome st o rest log)
                       (f_equal (fun x => (x, _)) Ho))).
Qed.

(** Every run of [getAllPostsForChannel] is a scripted run. *)
Lemma getAllPostsForChannel_as_scripted fuel (w : World W) :
  exists sc new,
    requests (getAllPostsForChannel fetch this channelId options fuel w).2
    = (requests w ++ new)%list /\
    getAllPostsForChannel scripted this channelId options fuel (start sc)
    = ((getAllPostsForChannel fetch this channelId options fuel w).1,
       {| net := []; requests := new |}).
Proof.
  destruct (while_loop_as_scripted fuel
              {| allPosts := ∅; allOrder := []; page := 0; hasMore := true |} w)
    as (sc & new & Hreq & Hsc).
  exists sc, new. unfold getAllPostsForChannel, bind, start.
  specialize (Hsc [] []). rewrite app_nil_r in Hsc. rewrite Hsc.
  by destruct (while_loop fetch _ _ _ _ _ _) as [[st | e |] w'].
Qed.
End AnyNetwork.

(** ** The scenarios of the specification, run *)

(** One empty page: one request, an empty result. *)
Example one_empty_page :
  let run :=
    getAllPostsForChannel scripted sample_client "town-square" None 5
      (start [ok_response (sample_page 0 0)]) in
  run.1 = Returned {| order := []; posts := ∅; next_post_id := ""; prev_post_id := "" |}
  /\ length (requests run.2) = 1%nat.
Proof. by vm_compute. Qed.

(** A cap of 50 and a first page of 200 ids: one request, 50 ids; the
    posts of the whole page stay in [posts]. *)
Example cap_50_first_page_200 :
  let run :=
    getAllPostsForChannel scripted sample_client "town-square"
      (Some (AllPostsOptions.mk None None None (Some (Num 50)))) 5
      (start [ok_response (sample_page 0 200); ok_response (sample_page 200 200)]) in
  length (requests run.2) = 1%nat
  /\ (order <$> (match run.1 with Returned r => Some r | _ => None end))
     = Some (sample_ids 0 50)
  /\ (size ∘ posts <$> (match run.1 with Returned r => Some r | _ => None end))
     = Some 200%nat.
Proof. by vm_compute. Qed.

(** The address of a page request with all three filters set. *)
Example posts_url_filters :
  posts_url sample_client "town-square" (Num 200) (Num 3)
    (Some (PostsOptions.mk (Some (Num 1734480000000)) (Some "b1") (Some "a1")))
  = {| href := "https://chat.example.org/api/v4/channels/town-square/posts";
       searchParams := [("page", "3"); ("per_page", "200");
                        ("since", "1734480000000"); ("before", "b1"); ("after", "a1")] |}.
Proof. by vm_compute. Qed.

(** A failed channel fetch: status, status text and body in the message. *)
Example getChannels_404 :
  (getChannels scripted sample_client None None
     (start [inr (mkResponse 404 "Not Found" "no such team" None)])).1
  = Thrown (Error "Failed to get channels: 404 Not Found - no such team").
Proof. by vm_compute. Qed.

(** * The properties of the specification *)

(** ** The cap *)

(** C1, as stated, fails for a cap of [0]: [0 || Infinity] is [Infinity],
    the run is uncapped, and the three ids of the only page all come back. *)
Lemma cap_zero_returns_more_than_zero :
  exists r,
    (getAllPostsForChannel scripted sample_client "town-square"
       (Some (AllPostsOptions.mk None None None (Some (Num 0)))) 5
       (start [ok_response (sample_page 0 3)])).1 = Returned r
    /\ ~ (Z.of_nat (length (order r)) <= 0).
Proof.
  eexists. split; [vm_compute; reflexivity|].
  vm_compute. intros H. by apply H.
Qed.

(** C1 (amended): for a cap [n >= 1], over any network, [n] iterations
    are enough for the run to end, and a returned [order] has at most [n]
    ids; over a paginated collection that holds at least [n] ids the run
    returns, and [order] is exactly the first [n] ids of the collection. *)
Theorem getAllPostsForChannel_cap (n : Z) :
  1 <= n ->
  (forall (W Post : Type) (fetch : Request -> W -> fetch_outcome (PostsResponse Post) * W)
      this channelId since before after fuel (w : World W),
      let run :=
        getAllPostsForChannel fetch this channelId
          (Some (AllPostsOptions.mk since before after (Some (Num n)))) fuel w in
      ((Z.to_nat n <= fuel)%nat -> run.1 <> OutOfFuel) /\
      (forall r, run.1 = Returned r -> Z.of_nat (length (order r)) <= n)) /\
  (forall (Post : Type) this channelId since before after
      (pages : list (PostsResponse Post)) rest fuel,
      paginated pages ->
      n <= Z.of_nat (length (concat (map order pages))) ->
      (length pages <= fuel)%nat ->
      exists r,
        (getAllPostsForChannel scripted this channelId
           (Some (AllPostsOptions.mk since before after (Some (Num n)))) fuel
           (start (map ok_response pages ++ rest)%list)).1 = Returned r
        /\ order r = take (Z.to_nat n) (concat (map order pages))
        /\ Z.of_nat (length (order r)) = n).
Proof.
  intros Hn.
  assert (forall since before after,
    cap (Some (AllPostsOptions.mk since before after (Some (Num n)))) = Num n)
    as Hcap.
  { intros. unfold cap. simpl. destruct (Z.eqb_spec n 0); [lia | done]. }
  split.
  - intros W Post fetch this channelId since before after fuel w run. subst run.
    unfold getAllPostsForChannel, bind. split.
    + intros Hfuel.
      pose proof (while_loop_capped fetch this channelId _ n fuel
        {| allPosts := ∅; allOrder := []; page := 0; hasMore := true |} w
        (Hcap since before after)) as Hloop.
      destruct (while_loop _ _ _ _ _ _ _) as [[st | e |] w']; simpl in *; try done.
      intros _. apply Hloop; [|done]. unfold perPage. lia.
    + intros r. destruct (while_loop _ _ _ _ _ _ _) as [[st | e |] w'];
        simpl; try done.
      unfold ret. intros [= <-]. cbn [order]. rewrite Hcap.
      apply slice0_length_le. lia.
  - intros Post this channelId since before after pages rest fuel Hpag Hlen Hfuel.
    destruct (while_loop_paginated this channelId _ n pages
      {| allPosts := ∅; allOrder := []; page := 0; hasMore := true |} rest [] fuel
      (Hcap since before after) Hpag) as (st' & w' & Hrun & Hge & Htake);
      try done; simpl; try lia.
    unfold getAllPostsForChannel, bind, start. rewrite Hrun.
    eexists. split; [reflexivity|]. cbn [order]. rewrite Hcap.
    assert (slice0 (allOrder st') (Num n) = take (Z.to_nat n) (allOrder st')) as ->.
    { simpl. destruct (Z.ltb_spec n 0); [lia | done]. }
    rewrite Htake. simpl. split; [done|].
    rewrite length_take. lia.
Qed.

(** The scenario of the specification: a cap of 50 and a first page of
    200 ids give exactly 50 ids. *)
Lemma getAllPostsForChannel_cap_witness :
  1 <= 50 /\
  exists r,
    (getAllPostsForChannel scripted sample_client "town-square"
       (Some (AllPostsOptions.mk None None None (Some (Num 50)))) 1
       (start [ok_response (sample_page 0 200)])).1 = Returned r
    /\ Z.of_nat (length (order r)) = 50.
Proof.
  split; [lia|].
  destruct (getAllPostsForChannel_cap 50 ltac:(lia)) as [_ H].
  destruct (H nat sample_client "town-square" None None None
              [sample_page 0 200] [] 1%nat) as (r & Hr & _ & Hlen).
  - simpl. split; [by left | done].
  - vm_compute. discriminate.
  - simpl. lia.
  - exists r. split; [exact Hr | exact Hlen].
Defined.

(** ** Page after page *)

(** C2, as stated, fails when a cap is reached: with a cap of 50 the first
    page is full (200 ids), yet it is the only page asked for; the second
    outcome of the script is never consumed. *)
Lemma full_page_at_cap_is_last :
  let options := Some (AllPostsOptions.mk None None None (Some (Num 50))) in
  let run :=
    getAllPostsForChannel scripted sample_client "town-square" options 5
      (start [ok_response (sample_page 0 200); ok_response (sample_page 200 200)]) in
  length (order (sample_page 0 200)) = Z.to_nat perPage
  /\ requests run.2 = [page_request sample_client "town-square" options 0]
  /\ length (net run.2) = 1%nat.
Proof. vm_compute. repeat split; reflexivity. Qed.

(** C2 (amended): while full pages keep the running total below the cap
    (always, when there is no cap), each is followed by the request for the
    next page index; a page shorter than the page size (empty or not) ends
    the run normally, with no request after it.  So over full pages [fs]
    followed by a short page [s], the requests issued are exactly those for
    pages [0 .. length fs], the rest of the script is left untouched, and
    the run returns the ids of all these pages, in order, cut at the cap. *)
Theorem getAllPostsForChannel_pages {Post : Type} this channelId options
    (fs : list (PostsResponse Post)) (s : PostsResponse Post) rest fuel :
  Forall (fun p => length (order p) = Z.to_nat perPage) fs ->
  (length (order s) < Z.to_nat perPage)%nat ->
  number_lt (Num (perPage * Z.of_nat (length fs))) (cap options) = true ->
  (length fs < fuel)%nat ->
  let run :=
    getAllPostsForChannel scripted this channelId options fuel
      (start (map ok_response fs ++ ok_response s :: rest)%list) in
  requests run.2 = page_requests this channelId options 0 (S (length fs))
  /\ net run.2 = rest
  /\ exists r,
       run.1 = Returned r /\
       order r = slice0 (concat (map order fs) ++ order s)%list (cap options).
Proof.
  intros Hfull Hshort Hcap Hfuel run. subst run.
  unfold getAllPostsForChannel, bind, start.
  replace fuel with (length fs + S (fuel - S (length fs)))%nat by lia.
  rewrite while_loop_full_pages; [|done|done|by simpl].
  set (st := merge_pages _ fs).
  assert (hasMore st = true) as Hmore by by apply merge_pages_hasMore.
  assert (allOrder st = concat (map order fs)) as Horder
    by (unfold st; by rewrite merge_pages_allOrder).
  assert (page st = Z.of_nat (length fs)) as Hpage
    by (unfold st; by rewrite merge_pages_page).
  rewrite while_loop_last_page; [| |lia].
  2:{ unfold loop_guard. rewrite Hmore, Horder. simpl.
      unfold array_length. by rewrite concat_full_length. }
  cbn [fst snd net requests]. rewrite Hpage, page_requests_snoc.
  split; [done|]. split; [done|].
  eexists. split; [reflexivity|]. cbn [order]. f_equal.
  unfold last_page.
  destruct (number_seq _ (Num 0)) eqn:Hempty; cbn [merge_page allOrder].
  - apply number_seq_length_0 in Hempty. by rewrite Hempty, app_nil_r.
  - by rewrite Horder.
Qed.

(** The scenario of the specification: pages of 200, 200 and 47 ids, no
    cap: exactly three requests, 447 ids. *)
Lemma getAllPostsForChannel_pages_witness :
  let run :=
    getAllPostsForChannel scripted sample_client "town-square" None 3
      (start [ok_response (sample_page 0 200); ok_response (sample_page 200 200);
              ok_response (sample_page 400 47)]) in
  length (requests run.2) = 3%nat
  /\ exists r, run.1 = Returned r /\ length (order r) = 447%nat.
Proof.
  destruct (getAllPostsForChannel_pages sample_client "town-square" None
              [sample_page 0 200; sample_page 200 200] (sample_page 400 47) [] 3)
    as (Hreq & _ & r & Hr & Hord).
  - repeat constructor.
  - vm_compute. lia.
  - reflexivity.
  - simpl. lia.
  - split.
    + exact (eq_trans (f_equal length Hreq) (page_requests_length _ _ _ _ _)).
    + exists r. split; [exact Hr|]. rewrite Hord. by vm_compute.
Defined.

(** ** Failure of a page *)

(** C3: when the fetch of a page throws (transport failure, non-success
    status, undecodable body), the aggregation throws that same error: the
    result carries no [PostsResponse], whatever was collected from the
    full pages [fs] before.  The failing fetch is the one the aggregator
    issues after [fs]: page size [perPage], page index [length fs], the
    filters of the run. *)
Theorem getAllPostsForChannel_page_failure {Post : Type} this channelId options
    (fs : list (PostsResponse Post)) bad rest fuel e :
  Forall (fun p => length (order p) = Z.to_nat perPage) fs ->
  number_lt (Num (perPage * Z.of_nat (length fs))) (cap options) = true ->
  (length fs < fuel)%nat ->
  (getPostsForChannel scripted this channelId (Some (Num perPage))
     (Some (Num (Z.of_nat (length fs)))) (page_filters options)
     (start [bad])).1 = Thrown e ->
  (getAllPostsForChannel scripted this channelId options fuel
     (start (map ok_response fs ++ bad :: rest)%list)).1 = Thrown e.
Proof.
  intros Hfull Hcap Hfuel Hbad.
  unfold getAllPostsForChannel, bind, start.
  replace fuel with (length fs + S (fuel - S (length fs)))%nat by lia.
  rewrite while_loop_full_pages; [|done|done|by simpl].
  set (st := merge_pages _ fs). set (w := {| net := bad :: rest; requests := _ |}).
  assert (loop_guard options st = true) as Hg.
  { unfold loop_guard, st. rewrite merge_pages_hasMore, merge_pages_allOrder by done.
    simpl. unfold array_length. by rewrite concat_full_length. }
  destruct (fetch_page scripted this channelId options st w) as [res w1] eqn:Hf.
  assert (res = Thrown e) as ->.
  { pose proof (fetch_page_scripted this channelId options st bad rest (requests w)
      (Some (Num perPage)) (Some (Num (Z.of_nat (length fs)))) (page_filters options)
      [] []) as E.
    change {| net := bad :: rest; requests := requests w |} with w in E.
    rewrite Hf in E. unfold start in Hbad. simpl in E. congruence. }
  by rewrite (while_loop_throw _ _ _ _ _ _ _ _ _ Hg Hf).
Qed.

(** The scenario of the specification: the second page request fails with
    HTTP 500; the 200 ids of page one are not returned. *)
Lemma getAllPostsForChannel_page_failure_witness :
  (getAllPostsForChannel scripted sample_client "town-square" None 2
     (start [ok_response (sample_page 0 200);
             inr (mkResponse 500 "Internal Server Error" "boom" None)])).1
  = Thrown (Error "Failed to get posts: 500 Internal Server Error").
Proof.
  apply (getAllPostsForChannel_page_failure sample_client "town-square" None
           [sample_page 0 200] (inr (mkResponse 500 "Internal Server Error" "boom" None))
           [] 2).
  - repeat constructor.
  - reflexivity.
  - simpl. lia.
  - vm_compute. reflexivity.
Defined.

(** ** Merging two pages *)

(** C4, as stated, fails when the second page has an empty order and
    posts all the same: the loop breaks on the empty order before it
    merges the page, so the post under ["z"] is not in the result, and
    [posts] is not the union.  The two pages have disjoint ids, there is no
    cap, and two requests were issued. *)
Lemma empty_order_page_posts_dropped :
  let P1 := sample_page 0 200 in
  let P2 := stray_page in
  let run :=
    getAllPostsForChannel scripted sample_client "town-square" None 5
      (start [ok_response P1; ok_response P2]) in
  dom (posts P1) ## dom (posts P2) /\
  length (requests run.2) = 2%nat /\
  exists r, run.1 = Returned r /\ posts r <> posts P1 ∪ posts P2.
Proof.
  intros P1 P2 run.
  split; [apply (bool_decide_unpack _); vm_compute; exact I|].
  split; [vm_compute; reflexivity|].
  assert (match run.1 with
          | Returned r => posts r !! "z" = None
          | _ => False
          end) as Hrun by (vm_compute; reflexivity).
  destruct run.1 as [r | e |]; [|done|done].
  exists r. split; [done|]. intros Hunion.
  rewrite Hunion in Hrun.
  assert ((posts P1 ∪ posts P2) !! "z" = Some 7%nat) as Hz
    by (vm_compute; reflexivity).
  congruence.
Qed.

(** C4 (amended): a run over exactly two pages, a full [P1] and then a
    [P2] that ends the run, with posts under disjoint ids, none of them
    ["__proto__"], and no cap, returns the ids of [P1] followed by those
    of [P2]; its posts are the union of the posts of [P1] and [P2] when the
    order of [P2] is not empty, and the posts of [P1] alone when it is. *)
Theorem getAllPostsForChannel_two_pages {Post : Type} this channelId options
    (P1 P2 : PostsResponse Post) rest fuel :
  options ≫= AllPostsOptions.maxPosts = None ->
  posts P1 ##ₘ posts P2 ->
  plain_keys P1 -> plain_keys P2 ->
  length (order P1) = Z.to_nat perPage ->
  length (order P2) <> Z.to_nat perPage ->
  (2 <= fuel)%nat ->
  let run :=
    getAllPostsForChannel scripted this channelId options fuel
      (start (ok_response P1 :: ok_response P2 :: rest)) in
  requests run.2 = page_requests this channelId options 0 2 /\
  exists r,
    run.1 = Returned r /\
    order r = (order P1 ++ order P2)%list /\
    posts r = if bool_decide (order P2 = []) then posts P1 else posts P1 ∪ posts P2.
Proof.
  intros Hnocap Hdisj _ _ Hfull Hlast Hfuel run. subst run.
  assert (cap options = Infinity) as Hcap by (unfold cap; by rewrite Hnocap).
  unfold getAllPostsForChannel, bind, start.
  destruct fuel as [|[|fuel]]; [lia|lia|].
  change (ok_response P1 :: ok_response P2 :: rest)
    with (map ok_response [P1] ++ ok_response P2 :: rest)%list.
  change (S (S fuel)) with (length [P1] + S fuel)%nat.
  rewrite while_loop_full_pages; [|by constructor|done|rewrite Hcap; reflexivity].
  rewrite while_loop_last_page; [| |done].
  2:{ unfold loop_guard. rewrite Hcap.
      rewrite merge_pages_hasMore; [reflexivity | by constructor | done]. }
  cbn [fst snd requests]. split; [done|].
  eexists. split; [reflexivity|]. cbn [order posts]. rewrite Hcap.
  unfold last_page, merge_pages. cbn [foldl].
  case_bool_decide as Hempty.
  - rewrite (proj2 (number_seq_length_0 (order P2)) Hempty).
    cbn [merge_page allOrder allPosts slice0 app].
    by rewrite Hempty, (right_id_L ∅ (∪)), app_nil_r.
  - assert (number_seq (array_length (order P2)) (Num 0) = false) as ->
      by (apply not_true_is_false; by rewrite number_seq_length_0).
    cbn [merge_page allOrder allPosts slice0 app].
    split; [done|]. rewrite (right_id_L ∅ (∪)). by apply map_union_comm.
Qed.

Lemma getAllPostsForChannel_two_pages_witness :
  exists r,
    (getAllPostsForChannel scripted sample_client "town-square" None 2
       (start [ok_response (sample_page 0 200); ok_response (sample_page 200 47)])).1
    = Returned r
    /\ order r = (sample_ids 0 200 ++ sample_ids 200 47)%list
    /\ posts r = posts (sample_page 0 200) ∪ posts (sample_page 200 47).
Proof.
  destruct (getAllPostsForChannel_two_pages sample_client "town-square" None
              (sample_page 0 200) (sample_page 200 47) [] 2)
    as (_ & r & Hr & Hord & Hposts).
  - reflexivity.
  - apply map_disjoint_dom, (bool_decide_unpack _). vm_compute. exact I.
  - vm_compute. reflexivity.
  - vm_compute. reflexivity.
  - vm_compute. reflexivity.
  - vm_compute. lia.
  - lia.
  - exists r. split; [exact Hr|]. split; [exact Hord|].
    rewrite Hposts. by rewrite bool_decide_eq_false_2.
Defined.

(** ** Normalization of channel and user lists *)

Lemma wrap_array_not_array field raw : isArray raw = false -> wrap_array field raw = raw.
Proof. by destruct raw. Qed.

Lemma wrap_array_idempotent field raw :
  wrap_array field (wrap_array field raw) = wrap_array field raw.
Proof. by destruct raw. Qed.

Section ScriptedLists.
Variable this : MattermostClient.
Variables limit page : option number.
Variable resp : Response json.
Variable rest : list (fetch_outcome json).
Variable log : list Request.

Abbreviation answered := {| net := inr resp :: rest; requests := log |}.

Lemma getChannels_ok raw :
  ok resp = true -> body_json resp = Some raw ->
  (getChannels scripted this limit page answered).1
  = Returned (wrap_array "channels" raw).
Proof.
  intros Hok Hraw.
  unfold getChannels, try_catch, bind, do_fetch, read_json; simpl.
  by rewrite Hok, Hraw.
Qed.

Lemma getMyChannels_ok raw :
  ok resp = true -> body_json resp = Some raw ->
  (getMyChannels scripted this limit page answered).1
  = Returned (wrap_array "channels" raw).
Proof.
  intros Hok Hraw.
  unfold getMyChannels, try_catch, bind, do_fetch, read_json; simpl.
  by rewrite Hok, Hraw.
Qed.

Lemma getUsers_ok raw :
  ok resp = true -> body_json resp = Some raw ->
  (getUsers scripted this limit page answered).1
  = Returned (wrap_array "users" raw).
Proof.
  intros Hok Hraw.
  unfold getUsers, bind, do_fetch, read_json; simpl.
  by rewrite Hok, Hraw.
Qed.

Lemma getChannels_rejected :
  ok resp = false ->
  (getChannels scripted this limit page answered).1
  = Thrown (Error ("Failed to get channels: " ++ status_line resp
                   ++ " - " ++ body_text resp)).
Proof.
  intros Hok. unfold getChannels, try_catch, bind, do_fetch; simpl.
  by rewrite Hok.
Qed.
End ScriptedLists.

(** C5: when the decoded body is a bare array, [getChannels] and [getUsers]
    return an object whose [channels] (resp. [users]) field is that array
    and whose [total_count] is its length. *)
Theorem list_fetch_wraps_array this limit page (resp : Response json) items rest log :
  ok resp = true ->
  body_json resp = Some (JArray items) ->
  let w := {| net := inr resp :: rest; requests := log |} in
  (exists v,
     (getChannels scripted this limit page w).1 = Returned v /\
     get_field "channels" v = Some (JArray items) /\
     get_field "total_count" v = Some (JNumber (Num (Z.of_nat (length items))))) /\
  (exists v,
     (getUsers scripted this limit page w).1 = Returned v /\
     get_field "users" v = Some (JArray items) /\
     get_field "total_count" v = Some (JNumber (Num (Z.of_nat (length items))))).
Proof.
  intros Hok Hraw w. subst w. split.
  - eexists. split; [by apply getChannels_ok|]. by split.
  - eexists. split; [by apply getUsers_ok|]. by split.
Qed.

Lemma list_fetch_wraps_array_witness :
  let resp := mkResponse 200 "OK" "[null,true]" (Some (JArray [JNull; JBool true])) in
  exists v,
    (getChannels scripted sample_client None None (start [inr resp])).1 = Returned v /\
    get_field "channels" v = Some (JArray [JNull; JBool true]) /\
    get_field "total_count" v = Some (JNumber (Num 2)).
Proof.
  intros resp.
  exact (proj1 (list_fetch_wraps_array sample_client None None resp
                  [JNull; JBool true] [] [] eq_refl eq_refl)).
Defined.

(** C6: when the decoded body is not a bare array, [getChannels] and
    [getUsers] return it as it is; the transform is the identity there, and
    applying it twice is applying it once. *)
Theorem list_fetch_keeps_object this limit page (resp : Response json) raw rest log :
  ok resp = true ->
  body_json resp = Some raw ->
  isArray raw = false ->
  let w := {| net := inr resp :: rest; requests := log |} in
  (getChannels scripted this limit page w).1 = Returned raw /\
  (getUsers scripted this limit page w).1 = Returned raw /\
  (forall field,
     wrap_array field raw = raw /\
     wrap_array field (wrap_array field raw) = wrap_array field raw).
Proof.
  intros Hok Hraw Hobj w. subst w. split; [|split].
  - rewrite (getChannels_ok _ _ _ _ _ _ raw) by done. by rewrite wrap_array_not_array.
  - rewrite (getUsers_ok _ _ _ _ _ _ raw) by done. by rewrite wrap_array_not_array.
  - intros field. split; [by apply wrap_array_not_array | apply wrap_array_idempotent].
Qed.

Lemma list_fetch_keeps_object_witness :
  let envelope := JObject [("channels", JArray [JNull]); ("total_count", JNumber (Num 1))] in
  let resp := mkResponse 200 "OK" "" (Some envelope) in
  (getChannels scripted sample_client None None (start [inr resp])).1 = Returned envelope.
Proof.
  intros envelope resp.
  exact (proj1 (list_fetch_keeps_object sample_client None None resp envelope
                  [] [] eq_refl eq_refl eq_refl)).
Defined.

(** ** Non-success responses *)

(** C7, as stated, fails for [getPostsForChannel]: on a 500 response whose
    body is ["boom"], the error message has the status and the status text
    but not the body. *)
Lemma getPostsForChannel_error_drops_body :
  let resp : Response (PostsResponse nat) :=
    mkResponse 500 "Internal Server Error" "boom" None in
  ok resp = false /\
  exists message,
    (getPostsForChannel scripted sample_client "town-square" None None None
       (start [inr resp])).1 = Thrown (Error message)
    /\ includes message (body_text resp) = false.
Proof. split; [done|]. eexists. split; [vm_compute; reflexivity | by vm_compute]. Qed.

(** C7 (amended): on a non-success status a single-page fetch throws an
    error whose message carries the status code and the status text; the
    message of [getChannels] carries the response body as well, that of
    [getPostsForChannel] is made of the status code and status text only. *)
Theorem non_success_status_throws this :
  (forall (Post : Type) (resp : Response (PostsResponse Post)) channelId limit page
      filters rest log,
      ok resp = false ->
      let message := "Failed to get posts: " ++ status_line resp in
      (getPostsForChannel scripted this channelId limit page filters
         {| net := inr resp :: rest; requests := log |}).1 = Thrown (Error message)
      /\ includes message (number_toString (Num (status resp))) = true
      /\ includes message (statusText resp) = true) /\
  (forall (resp : Response json) limit page rest log,
      ok resp = false ->
      exists message,
        (getChannels scripted this limit page
           {| net := inr resp :: rest; requests := log |}).1 = Thrown (Error message)
        /\ includes message (number_toString (Num (status resp))) = true
        /\ includes message (statusText resp) = true
        /\ includes message (body_text resp) = true).
Proof.
  split.
  - intros Post resp channelId limit page filters rest log Hok message.
    subst message. unfold status_line.
    set (code := number_toString (Num (status resp))).
    split; [|split].
    + unfold getPostsForChannel, bind, do_fetch; simpl. by rewrite Hok.
    + apply includes_app.
    + rewrite <- (string_app_assoc code " "), <- string_app_assoc.
      apply includes_app_r.
  - intros resp limit page rest log Hok. eexists.
    split; [by apply getChannels_rejected|]. unfold status_line.
    set (code := number_toString (Num (status resp))).
    split; [|split].
    + rewrite (string_app_assoc code). apply includes_app.
    + rewrite (string_app_assoc code), (string_app_assoc " ").
      rewrite <- (string_app_assoc code " "), <- string_app_assoc.
      apply includes_app.
    + rewrite <- (string_app_assoc _ " - "), <- string_app_assoc.
      apply includes_app_r.
Qed.

Lemma non_success_status_throws_witness :
  let resp : Response json := mkResponse 404 "Not Found" "no such team" None in
  ok resp = false /\
  exists message,
    (getChannels scripted sample_client None None (start [inr resp])).1
    = Thrown (Error message)
    /\ includes message (number_toString (Num 404)) = true
    /\ includes message "Not Found" = true
    /\ includes message "no such team" = true.
Proof.
  intros resp. split; [done|].
  exact (proj2 (non_success_status_throws sample_client) resp None None [] [] eq_refl).
Defined.

(** ** Duplicate ids *)

(** C8, as stated, fails: the loop appends the ids of each page without
    looking at those it already has.  When the second page repeats the id
    ["0"] of the first, [order] holds it twice. *)
Lemma overlapping_pages_duplicate_ids :
  exists r,
    (getAllPostsForChannel scripted sample_client "town-square" None 5
       (start [ok_response (sample_page 0 200); ok_response (sample_page 0 1)])).1
    = Returned r
    /\ ~ NoDup (order r).
Proof.
  set (run := getAllPostsForChannel _ _ _ _ _ _).
  assert (match run.1 with
          | Returned r => bool_decide (NoDup (order r)) = false
          | _ => False
          end) as Hrun by (vm_compute; reflexivity).
  destruct run.1 as [r | e |]; [|done|done].
  exists r. split; [done|]. exact (proj1 (bool_decide_eq_false _) Hrun).
Qed.

(** C8 (amended): when no id occurs twice among the ids the upstream
    pages deliver, the returned [order] has no duplicate id. *)
Theorem getAllPostsForChannel_NoDup {Post : Type} this channelId options
    (sc : list (fetch_outcome (PostsResponse Post))) fuel r :
  NoDup (script_ids sc) ->
  (getAllPostsForChannel scripted this channelId options fuel (start sc)).1
  = Returned r ->
  NoDup (order r).
Proof.
  intros Hnodup. unfold getAllPostsForChannel, bind, start.
  destruct (while_loop _ _ _ _ _ _ _) as [[st | e |] w'] eqn:Hrun; simpl; try done.
  intros [= <-]. cbn [order]. apply slice0_NoDup.
  destruct (while_loop_scripted_ids _ _ _ _ _ _ _ _ _ Hrun) as (used & Hsc & ->).
  simpl. rewrite Hsc in Hnodup. unfold script_ids in Hnodup.
  rewrite map_app, concat_app in Hnodup.
  by apply NoDup_app in Hnodup as [Hused _].
Qed.

Lemma getAllPostsForChannel_NoDup_witness :
  exists r,
    (getAllPostsForChannel scripted sample_client "town-square" None 5
       (start [ok_response (sample_page 0 200); ok_response (sample_page 200 3)])).1
    = Returned r
    /\ NoDup (order r).
Proof.
  set (sc := [ok_response (sample_page 0 200); ok_response (sample_page 200 3)]).
  set (run := getAllPostsForChannel _ _ _ _ _ _).
  assert (match run.1 with Returned r => True | _ => False end) as Hrun
    by (vm_compute; exact I).
  destruct run.1 as [r | e |] eqn:Hr; [|done|done].
  exists r. split; [done|].
  apply (getAllPostsForChannel_NoDup sample_client "town-square" None sc 5).
  - apply (bool_decide_unpack _). vm_compute. exact I.
  - exact Hr.
Defined.

(** ** A cap of zero *)

Section SameRun.
Context {W Post : Type}.
Variable fetch : Request -> W -> fetch_outcome (PostsResponse Post) * W.
Variable this : MattermostClient.
Variable channelId : string.



End SameRun.


(** ** Falsy filters *)

(** C10: a [since] of [0], an empty [before] and an empty [after] leave
    no parameter in the address, which is the address built without them;
    so the call is the call without that filter, on any network. *)
Theorem getPostsForChannel_falsy_filter {W Post : Type}
    (fetch : Request -> W -> fetch_outcome (PostsResponse Post) * W)
    this channelId limit page since before after (w : World W) :
  let get := getPostsForChannel fetch this channelId limit page in
  let url o :=
    posts_url this channelId (default (Num 30) limit) (default (Num 0) page) o in
  (get (Some (PostsOptions.mk (Some (Num 0)) before after)) w
   = get (Some (PostsOptions.mk None before after)) w
   /\ "since" ∉ (searchParams (url (Some (PostsOptions.mk (Some (Num 0)) before after)))).*1) /\
  (get (Some (PostsOptions.mk since (Some "") after)) w
   = get (Some (PostsOptions.mk since None after)) w
   /\ "before" ∉ (searchParams (url (Some (PostsOptions.mk since (Some "") after)))).*1) /\
  (get (Some (PostsOptions.mk since before (Some ""))) w
   = get (Some (PostsOptions.mk since before None)) w
   /\ "after" ∉ (searchParams (url (Some (PostsOptions.mk since before (Some ""))))).*1).
Proof.
  intros get url. subst get url.
  assert (forall l : list string, bool_decide ("since" ∉ l) = true -> "since" ∉ l) as Hs
    by (intros l; apply bool_decide_eq_true_1).
  assert (forall l : list string, bool_decide ("before" ∉ l) = true -> "before" ∉ l) as Hb
    by (intros l; apply bool_decide_eq_true_1).
  assert (forall l : list string, bool_decide ("after" ∉ l) = true -> "after" ∉ l) as Ha
    by (intros l; apply bool_decide_eq_true_1).
  split; [|split]; (split; [reflexivity|]); unfold posts_url; simpl.
  - destruct before as [[|c before]|], after as [[|c' after]|]; simpl;
      by apply Hs.
  - destruct since as [[z| |]|], after as [[|c' after]|]; simpl;
      try destruct (z =? 0); simpl; by apply Hb.
  - destruct since as [[z| |]|], before as [[|c before]|]; simpl;
      try destruct (z =? 0); simpl; by apply Ha.
Qed.

(** * Further properties of the client *)

(** ** The requests of a run *)

Section RunRequests.
Context {W Post : Type}.
Variable fetch : Request -> W -> fetch_outcome (PostsResponse Post) * W.
Variable this : MattermostClient.
Variable channelId : string.
Variable options : option AllPostsOptions.t.

(** A successful, decodable answer to the page request is the page. *)
Lemma fetch_page_answered st (w : World W) resp n p :
  fetch (page_request this channelId options (page st)) (net w) = (inr resp, n) ->
  ok resp = true ->
  body_json resp = Some p ->
  fetch_page fetch this channelId options st w
  = (Returned p,
     {| net := n;
        requests := (requests w ++ [page_request this channelId options (page st)])%list |}).
Proof.
  intros Hfetch Hok Hbody.
  unfold fetch_page, getPostsForChannel, bind, do_fetch, page_request in *; simpl in *.
  rewrite Hfetch. simpl. rewrite Hok. simpl. unfold read_json. by rewrite Hbody.
Qed.

(** The requests of the loop are those of consecutive pages; the loop
    asks for nothing when its guard fails, and under a finite cap every
    request but the last has brought [perPage] ids. *)
Lemma while_loop_request_count fuel st (w : World W) :
  exists k,
    (k <= fuel)%nat /\
    requests (while_loop fetch this channelId options fuel st w).2
    = (requests w ++ page_requests this channelId options (page st) k)%list /\
    (loop_guard options st = false -> k = 0%nat) /\
    (forall n, cap options = Num n -> loop_guard options st = true ->
       perPage * (Z.of_nat k - 1) < n - Z.of_nat (length (allOrder st))).
Proof.
  revert st w. induction fuel as [|fuel IH]; intros st w.
  - exists 0%nat. simpl. destruct (loop_guard options st) eqn:Hg; simpl;
      rewrite app_nil_r; (split; [lia|]); (split; [done|]); (split; [done|]).
    + intros n Hcap _. unfold loop_guard in Hg. rewrite Hcap in Hg.
      apply andb_true_iff in Hg as [_ Hg]. simpl in Hg. apply Z.ltb_lt in Hg.
      unfold perPage. lia.
    + done.
  - destruct (loop_guard options st) eqn:Hg.
    2:{ exists 0%nat. rewrite while_loop_exit by done. simpl. rewrite app_nil_r.
        repeat split; [lia | done]. }
    assert (forall n, cap options = Num n ->
              0 < n - Z.of_nat (length (allOrder st))) as Hbelow.
    { intros n Hcap. unfold loop_guard in Hg. rewrite Hcap in Hg.
      apply andb_true_iff in Hg as [_ Hg]. simpl in Hg. apply Z.ltb_lt in Hg. lia. }
    pose proof (fetch_page_requests fetch this channelId options st w) as Hreq.
    pose proof (fetch_page_fuel fetch this channelId options st w) as Hfuel.
    destruct (fetch_page fetch this channelId options st w)
      as [[response | e |] w'] eqn:Hf; [| |done]; simpl in Hreq.
    + rewrite (while_loop_page _ _ _ _ _ _ _ _ _ Hg Hf).
      destruct (number_seq (array_length (order response)) (Num 0)).
      { exists 1%nat. simpl. rewrite Hreq. repeat split; [lia | done |].
        intros n Hcap _. specialize (Hbelow n Hcap). unfold perPage. lia. }
      destruct (number_ge _ _).
      { exists 1%nat. simpl. rewrite Hreq. repeat split; [lia | done |].
        intros n Hcap _. specialize (Hbelow n Hcap). unfold perPage. lia. }
      destruct (IH (merge_page st response) w') as (k & Hk & Hrequests & Hzero & Hcount).
      exists (S k). rewrite Hrequests, Hreq, <- app_assoc. simpl.
      repeat split; [lia | done |].
      intros n Hcap _.
      destruct (loop_guard options (merge_page st response)) eqn:Hg'.
      * specialize (Hcount n Hcap eq_refl).
        unfold loop_guard in Hg'. apply andb_true_iff in Hg' as [Hmore _].
        simpl in Hmore. apply number_seq_length_perPage in Hmore.
        simpl in Hcount. rewrite length_app, Hmore in Hcount.
        unfold perPage in *. lia.
      * rewrite (Hzero eq_refl). specialize (Hbelow n Hcap). unfold perPage. lia.
    + rewrite (while_loop_throw _ _ _ _ _ _ _ _ _ Hg Hf).
      exists 1%nat. simpl. rewrite Hreq. repeat split; [lia | done |].
      intros n Hcap _. specialize (Hbelow n Hcap). unfold perPage. lia.
Qed.

Lemma getAllPostsForChannel_world fuel (w : World W) :
  (getAllPostsForChannel fetch this channelId options fuel w).2
  = (while_loop fetch this channelId options fuel
       {| allPosts := ∅; allOrder := []; page := 0; hasMore := true |} w).2.
Proof.
  unfold getAllPostsForChannel, bind.
  by destruct (while_loop _ _ _ _ _ _ _) as [[st | e |] w'].
Qed.
End RunRequests.

(** X1: whatever the network answers, the requests of a run are those
    for the pages 0, 1, 2, ... of the channel, in that order and without a
    gap, each with the page size [perPage] and the filters of the run, and
    there are no more of them than iterations. *)
Theorem getAllPostsForChannel_requests {W Post : Type}
    (fetch : Request -> W -> fetch_outcome (PostsResponse Post) * W)
    this channelId options fuel (w : World W) :
  exists k,
    (k <= fuel)%nat /\
    requests (getAllPostsForChannel fetch this channelId options fuel w).2
    = (requests w ++ page_requests this channelId options 0 k)%list.
Proof.
  rewrite getAllPostsForChannel_world.
  destruct (while_loop_request_count fetch this channelId options fuel
              {| allPosts := ∅; allOrder := []; page := 0; hasMore := true |} w)
    as (k & Hk & Hreq & _).
  by exists k.
Qed.

(** X2: under a cap [n >= 1] a run issues at most [ceil (n / perPage)]
    requests, whatever the network answers and however much fuel it has. *)
Theorem getAllPostsForChannel_request_bound {W Post : Type}
    (fetch : Request -> W -> fetch_outcome (PostsResponse Post) * W)
    this channelId since before after (n : Z) fuel (w : World W) :
  1 <= n ->
  let options := Some (AllPostsOptions.mk since before after (Some (Num n))) in
  exists k,
    requests (getAllPostsForChannel fetch this channelId options fuel w).2
    = (requests w ++ page_requests this channelId options 0 k)%list /\
    Z.of_nat k <= (n + perPage - 1) / perPage.
Proof.
  intros Hn options. rewrite getAllPostsForChannel_world.
  assert (cap options = Num n) as Hcap.
  { unfold cap, options. simpl. destruct (Z.eqb_spec n 0); [lia | done]. }
  destruct (while_loop_request_count fetch this channelId options fuel
              {| allPosts := ∅; allOrder := []; page := 0; hasMore := true |} w)
    as (k & _ & Hreq & _ & Hcount).
  exists k. split; [done|].
  assert (loop_guard (Post:=Post) options
            {| allPosts := ∅; allOrder := []; page := 0; hasMore := true |} = true) as Hg.
  { unfold loop_guard. rewrite Hcap. simpl. apply Z.ltb_lt. lia. }
  specialize (Hcount n Hcap Hg). simpl in Hcount.
  apply Z.div_le_lower_bound; unfold perPage in *; lia.
Qed.

Lemma getAllPostsForChannel_request_bound_witness :
  1 <= 450 /\
  exists k,
    requests
      (getAllPostsForChannel scripted sample_client "town-square"
         (Some (AllPostsOptions.mk None None None (Some (Num 450)))) 10
         (start [ok_response (sample_page 0 200); ok_response (sample_page 200 200);
                 ok_response (sample_page 400 200); ok_response (sample_page 600 200)])).2
    = page_requests sample_client "town-square"
        (Some (AllPostsOptions.mk None None None (Some (Num 450)))) 0 k
    /\ Z.of_nat k <= 3.
Proof.
  split; [lia|].
  exact (getAllPostsForChannel_request_bound scripted sample_client "town-square"
           None None None 450 10 (start _) ltac:(lia)).
Defined.

(** ** Runs that ask for nothing, and runs that never end *)

(** X3: a negative cap is truthy, so it is kept as the cap: the loop is
    never entered, no request is issued, and the result is empty (where a
    cap of [0] gives everything). *)
Theorem getAllPostsForChannel_negative_cap {W Post : Type}
    (fetch : Request -> W -> fetch_outcome (PostsResponse Post) * W)
    this channelId since before after (n : Z) fuel (w : World W) :
  n < 0 ->
  getAllPostsForChannel fetch this channelId
    (Some (AllPostsOptions.mk since before after (Some (Num n)))) fuel w
  = (Returned {| order := []; posts := ∅; next_post_id := ""; prev_post_id := "" |}, w).
Proof.
  intros Hn.
  assert (cap (Some (AllPostsOptions.mk since before after (Some (Num n)))) = Num n)
    as Hcap.
  { unfold cap. simpl. destruct (Z.eqb_spec n 0); [lia | done]. }
  unfold getAllPostsForChannel, bind. rewrite while_loop_exit.
  - unfold ret. rewrite Hcap. simpl. by destruct (n <? 0); rewrite take_nil.
  - unfold loop_guard. rewrite Hcap. simpl. apply Z.ltb_ge. lia.
Qed.

Lemma getAllPostsForChannel_negative_cap_witness :
  -5 < 0 /\
  getAllPostsForChannel scripted sample_client "town-square"
    (Some (AllPostsOptions.mk None None None (Some (Num (-5))))) 3
    (start [ok_response (sample_page 0 3)])
  = (Returned {| order := []; posts := ∅; next_post_id := ""; prev_post_id := "" |},
     start [ok_response (sample_page 0 3)]).
Proof.
  split; [lia|].
  exact (getAllPostsForChannel_negative_cap scripted sample_client "town-square"
           None None None (-5) 3 (start _) ltac:(lia)).
Defined.

(** X4: without a cap the run has no bound of its own.  Over a network
    that answers every request with a full page the loop never ends: with
    any number of iterations allowed it is still running, having issued
    one request per iteration. *)
Theorem getAllPostsForChannel_endless {W Post : Type}
    (fetch : Request -> W -> fetch_outcome (PostsResponse Post) * W)
    this channelId options fuel (w : World W) :
  cap options = Infinity ->
  (forall rq n, exists resp n' p,
     fetch rq n = (inr resp, n') /\ ok resp = true /\ body_json resp = Some p /\
     length (order p) = Z.to_nat perPage) ->
  let run := getAllPostsForChannel fetch this channelId options fuel w in
  run.1 = OutOfFuel /\
  requests run.2 = (requests w ++ page_requests this channelId options 0 fuel)%list.
Proof.
  intros Hcap Hfull run. subst run.
  assert (forall st (w : World W), hasMore st = true ->
    let r := while_loop fetch this channelId options fuel st w in
    r.1 = OutOfFuel /\
    requests r.2 = (requests w ++ page_requests this channelId options (page st) fuel)%list)
    as Hloop.
  { induction fuel as [|fuel IH]; intros st w0 Hmore r; subst r.
    - simpl. unfold loop_guard. rewrite Hmore, Hcap. simpl.
      by rewrite app_nil_r.
    - assert (loop_guard options st = true) as Hg
        by (unfold loop_guard; by rewrite Hmore, Hcap).
      destruct (Hfull (page_request this channelId options (page st)) (net w0))
        as (resp & n' & p & Hfetch & Hok & Hbody & Hlen).
      rewrite (while_loop_page _ _ _ _ _ _ _ _ _ Hg
                 (fetch_page_answered _ _ _ _ _ _ _ _ _ Hfetch Hok Hbody)).
      assert (number_seq (array_length (order p)) (Num 0) = false) as ->.
      { apply not_true_is_false. rewrite number_seq_length_0.
        intros E. by rewrite E in Hlen. }
      rewrite Hcap. cbn [number_ge array_length].
      destruct (IH (merge_page st p)
                  {| net := n';
                     requests := (requests w0 ++
                       [page_request this channelId options (page st)])%list |})
        as [Hout Hreq].
      { simpl. by apply number_seq_length_perPage. }
      split; [done|]. rewrite Hreq. simpl. by rewrite <- app_assoc. }
  rewrite getAllPostsForChannel_world.
  destruct (Hloop {| allPosts := ∅; allOrder := []; page := 0; hasMore := true |} w
              eq_refl) as [Hout Hreq].
  split; [|done].
  unfold getAllPostsForChannel, bind.
  by destruct (while_loop _ _ _ _ _ _ _) as [[st | e |] w'].
Qed.

Lemma getAllPostsForChannel_endless_witness :
  let run :=
    getAllPostsForChannel always_full sample_client "town-square" None 7
      {| net := tt; requests := [] |} in
  run.1 = OutOfFuel /\ length (requests run.2) = 7%nat.
Proof.
  destruct (getAllPostsForChannel_endless always_full sample_client "town-square"
              None 7 {| net := tt; requests := [] |} eq_refl) as [Hout Hreq].
  - intros rq n. eexists _, n, (sample_page 0 200).
    split; [reflexivity|]. split; [reflexivity|]. split; [reflexivity|].
    vm_compute. reflexivity.
  - split; [exact Hout|].
    exact (eq_trans (f_equal length Hreq) (page_requests_length _ _ _ _ _)).
Defined.

(** X5: when the first page comes back empty (nothing matches), the run
    returns an empty result after that one request; it does not throw,
    and it keeps nothing of what that page may otherwise hold. *)
Theorem getAllPostsForChannel_nothing_upstream {W Post : Type}
    (fetch : Request -> W -> fetch_outcome (PostsResponse Post) * W)
    this channelId options fuel (w : World W) resp n p :
  number_lt (Num 0) (cap options) = true ->
  fetch (page_request this channelId options 0) (net w) = (inr resp, n) ->
  ok resp = true ->
  body_json resp = Some p ->
  order p = [] ->
  getAllPostsForChannel fetch this channelId options (S fuel) w
  = (Returned {| order := []; posts := ∅; next_post_id := ""; prev_post_id := "" |},
     {| net := n;
        requests := (requests w ++ [page_request this channelId options 0])%list |}).
Proof.
  intros Hcap Hfetch Hok Hbody Hempty.
  unfold getAllPostsForChannel, bind.
  assert (loop_guard (Post:=Post) options
            {| allPosts := ∅; allOrder := []; page := 0; hasMore := true |} = true) as Hg
    by done.
  rewrite (while_loop_page _ _ _ _ _ _ _ _ _ Hg
             (fetch_page_answered _ _ _ _ _ _ _ _ _ Hfetch Hok Hbody)).
  rewrite (proj2 (number_seq_length_0 (order p)) Hempty).
  unfold ret. cbn [allOrder allPosts].
  destruct (slice0_is_take (A:=string) [] (cap options)) as [k ->].
  by rewrite take_nil.
Qed.

Lemma getAllPostsForChannel_nothing_upstream_witness :
  getAllPostsForChannel scripted sample_client "town-square"
    (Some (AllPostsOptions.mk (Some (Num 1734480000000)) None None (Some (Num 10)))) 1
    (start [ok_response (sample_page 0 0); ok_response (sample_page 0 3)])
  = (Returned {| order := []; posts := ∅; next_post_id := ""; prev_post_id := "" |},
     {| net := [ok_response (sample_page 0 3)];
        requests :=
          [page_request sample_client "town-square"
             (Some (AllPostsOptions.mk (Some (Num 1734480000000)) None None
                      (Some (Num 10)))) 0] |}).
Proof.
  exact (getAllPostsForChannel_nothing_upstream scripted sample_client "town-square"
           (Some (AllPostsOptions.mk (Some (Num 1734480000000)) None None (Some (Num 10))))
           0 (start [ok_response (sample_page 0 0); ok_response (sample_page 0 3)])
           _ _ (sample_page 0 0) eq_refl eq_refl eq_refl eq_refl eq_refl).
Defined.

(** ** The posts of a run *)

Section ScriptedPosts.
Context {Post : Type}.
Variable this : MattermostClient.
Variable channelId : string.
Variable options : option AllPostsOptions.t.



(** After a merge of pages the post of an id is that of the last page
    that has one. *)
Lemma merged_posts_lookup (pages : list (PostsResponse Post)) m id :
  foldl (fun m p => posts p ∪ m) m pages !! id
  = match last (omap (fun p => posts p !! id) pages) with
    | Some post => Some post
    | None => m !! id
    end.
Proof.
  revert m. induction pages as [|p pages IH]; intros m; [done|].
  cbn [foldl]. rewrite IH.
  change (omap (fun p => posts p !! id) (p :: pages))
    with (match posts p !! id with
          | Some post => post :: omap (fun p => posts p !! id) pages
          | None => omap (fun p => posts p !! id) pages
          end).
  destruct (posts p !! id) as [post|] eqn:Hp.
  - rewrite last_cons. destruct (last _); [done|].
    by apply lookup_union_Some_l.
  - destruct (last _); [done|]. by apply lookup_union_r.
Qed.
End ScriptedPosts.



(** X7: when pages overlap, the later page wins.  After full pages [fs]
    below the cap and a page [s] that ends the run, none with a post under
    ["__proto__"], an id that some merged page has a post for comes back
    with the post of the last merged page that has it ([s] is merged
    unless its order is empty). *)
Theorem getAllPostsForChannel_last_write_wins {Post : Type} this channelId options
    (fs : list (PostsResponse Post)) (s : PostsResponse Post) rest fuel :
  Forall (fun p => length (order p) = Z.to_nat perPage) fs ->
  length (order s) <> Z.to_nat perPage ->
  Forall plain_keys (fs ++ [s])%list ->
  number_lt (Num (perPage * Z.of_nat (length fs))) (cap options) = true ->
  (length fs < fuel)%nat ->
  exists r,
    (getAllPostsForChannel scripted this channelId options fuel
       (start (map ok_response fs ++ ok_response s :: rest)%list)).1 = Returned r /\
    forall id post,
      last (omap (fun p => posts p !! id)
              (fs ++ if bool_decide (order s = []) then [] else [s])%list)
      = Some post ->
      posts r !! id = Some post.
Proof.
  intros Hfull Hlast _ Hcap Hfuel.
  unfold getAllPostsForChannel, bind, start.
  replace fuel with (length fs + S (fuel - S (length fs)))%nat by lia.
  rewrite while_loop_full_pages; [|done|done|by simpl].
  set (st := merge_pages _ fs).
  rewrite while_loop_last_page; [| |done].
  2:{ unfold loop_guard, st.
      rewrite merge_pages_hasMore, merge_pages_allOrder by done.
      simpl. unfold array_length. by rewrite concat_full_length. }
  eexists. split; [reflexivity|]. intros id post. cbn [posts].
  assert (allPosts st = foldl (fun m p => posts p ∪ m) ∅ fs) as Hst
    by (unfold st; by rewrite merge_pages_allPosts).
  unfold last_page. case_bool_decide as Hempty.
  - rewrite (proj2 (number_seq_length_0 (order s)) Hempty). cbn [allPosts].
    rewrite Hst, merged_posts_lookup, app_nil_r. by intros ->.
  - assert (number_seq (array_length (order s)) (Num 0) = false) as ->
      by (apply not_true_is_false; by rewrite number_seq_length_0).
    cbn [merge_page allPosts].
    change (posts s ∪ allPosts st)
      with (foldl (fun m p => posts p ∪ m) (allPosts st) [s]).
    rewrite Hst, <- foldl_app, merged_posts_lookup. by intros ->.
Qed.

Lemma getAllPostsForChannel_last_write_wins_witness :
  exists r,
    (getAllPostsForChannel scripted sample_client "town-square" None 2
       (start [ok_response (sample_page 0 200); ok_response overriding_page])).1
    = Returned r
    /\ posts r !! "5" = Some 999%nat
    /\ posts r !! "6" = Some 6%nat.
Proof.
  destruct (getAllPostsForChannel_last_write_wins sample_client "town-square" None
              [sample_page 0 200] overriding_page [] 2)
    as (r & Hr & Hlookup).
  - constructor; [|constructor]. vm_compute. reflexivity.
  - vm_compute. lia.
  - constructor; [|constructor; [|constructor]]; vm_compute; reflexivity.
  - reflexivity.
  - simpl. lia.
  - exists r. split; [exact Hr|].
    split; apply Hlookup; vm_compute; reflexivity.
Defined.

(** ** What an error can tell *)

(** X9: [getPostsForChannel], [getUsers], [getChannel], [getPost],
    [getPostThread], [getUserProfile] and [getMe] never read the text of
    the response: two responses that differ in their text only give the
    same outcome, so what the server says in the body of a rejection is
    not in their error. *)
Theorem fetchers_ignore_body_text (this : MattermostClient) (code : Z)
    (reason text1 text2 : string) :
  (forall (B : Type) (body : option B) rest log id,
     let w t := {| net := inr (mkResponse code reason t body) :: rest;
                   requests := log |} in
     getChannel scripted this id (w text1) = getChannel scripted this id (w text2) /\
     getPost scripted this id (w text1) = getPost scripted this id (w text2) /\
     getPostThread scripted this id (w text1)
     = getPostThread scripted this id (w text2) /\
     getUserProfile scripted this id (w text1)
     = getUserProfile scripted this id (w text2) /\
     getMe scripted this (w text1) = getMe scripted this (w text2)) /\
  (forall (Post : Type) (body : option (PostsResponse Post)) rest log
      channelId limit page options,
     let w t := {| net := inr (mkResponse code reason t body) :: rest;
                   requests := log |} in
     getPostsForChannel scripted this channelId limit page options (w text1)
     = getPostsForChannel scripted this channelId limit page options (w text2)) /\
  (forall (body : option json) rest log limit page,
     let w t := {| net := inr (mkResponse code reason t body) :: rest;
                   requests := log |} in
     getUsers scripted this limit page (w text1)
     = getUsers scripted this limit page (w text2)).
Proof.
  split; [|split].
  - intros B body rest log id w. subst w.
    unfold getChannel, getPost, getPostThread, getUserProfile, getMe,
      bind, do_fetch, ok, status_line, read_json; simpl.
    by destruct ((200 <=? code) && (code <? 300)).
  - intros Post body rest log channelId limit page options w. subst w.
    unfold getPostsForChannel, bind, do_fetch, ok, status_line, read_json; simpl.
    by destruct ((200 <=? code) && (code <? 300)).
  - intros body rest log limit page w. subst w.
    unfold getUsers, bind, do_fetch, ok, status_line, read_json; simpl.
    by destruct ((200 <=? code) && (code <? 300)).
Qed.

(** * The tool handlers *)

(** ** Formatting *)

Lemma try_map_inr {A B} (f : A -> exception + B) l bs :
  try_map f l = inr bs <-> Forall2 (fun a b => f a = inr b) l bs.
Proof.
  revert bs. induction l as [|a l IH]; intros bs; simpl.
  - split; [intros [= <-]; constructor|].
    intros H. by inversion H.
  - destruct (f a) as [x|b] eqn:Hf.
    { split; [done|]. intros H. inversion H as [|? b' ? bs' Hb Hbs]; subst.
      congruence. }
    destruct (try_map f l) as [x|bs0] eqn:Hl.
    { split; [done|]. intros H. inversion H as [|? b' ? bs' Hb Hbs]; subst.
      by apply IH in Hbs. }
    split.
    + intros [= <-]. constructor; [done|]. by apply IH.
    + intros H. inversion H as [|? b' ? bs' Hb Hbs]; subst.
      apply IH in Hbs. congruence.
Qed.

Lemma format_channel_null channel :
  (exists formatted, format_channel channel = inr formatted) <-> JNull <> channel.
Proof. destruct channel; simpl; split; try done; eauto. by intros [? ?]. Qed.

Lemma format_channels_items items :
  (exists formatted, try_map format_channel items = inr formatted) <-> JNull ∉ items.
Proof.
  induction items as [|item items IH]; simpl.
  - split; [intros _; apply not_elem_of_nil | by eauto].
  - rewrite not_elem_of_cons, <- IH, <- format_channel_null.
    destruct (format_channel item) as [x|b].
    { split; [by intros [? ?] | by intros [[? ?] _]]. }
    destruct (try_map format_channel items) as [x|bs].
    { split; [by intros [? ?] | by intros [_ [? ?]]]. }
    split; eauto.
Qed.

Section ListHandler.
Context {W : Type}.
Variable engine_message : exception -> string.
Variable fetch : Request -> W -> fetch_outcome json * W.
Variable client : MattermostClient.

(** What [getChannels] makes of the outcome of its one request. *)
Lemma getChannels_run limit page (w : World W) :
  getChannels fetch client (Some limit) (Some page) w
  = let rq := channels_request client limit page in
    (match (fetch rq (net w)).1 with
     | inl message => Thrown (FetchError message)
     | inr resp =>
         if ok resp then
           match body_json resp with
           | Some raw => Returned (wrap_array "channels" raw)
           | None => Thrown SyntaxError
           end
         else Thrown (Error ("Failed to get channels: " ++ status_line resp
                             ++ " - " ++ body_text resp))
     end,
     {| net := (fetch rq (net w)).2; requests := (requests w ++ [rq])%list |}).
Proof.
  unfold getChannels, try_catch, bind, do_fetch, channels_request, append, new_URL;
    simpl.
  destruct (fetch _ _) as [[message|resp] n]; simpl; [done|].
  destruct (ok resp); simpl; [|done].
  unfold read_json. by destruct (body_json resp).
Qed.
End ListHandler.

(** X10: [handleListChannels] never throws and never loops: it always
    returns a result, after exactly one request, whose [page] and
    [per_page] are the arguments with their defaults, a [limit] of [0]
    being replaced by [100] like a missing one. *)
Theorem handleListChannels_one_request {W : Type} engine_message
    (fetch : Request -> W -> fetch_outcome json * W) client args (w : World W) :
  let run := handleListChannels engine_message fetch client args w in
  let limit := number_or (ListChannelsArgs.limit args) (Num 100) in
  let page := number_or (ListChannelsArgs.page args) (Num 0) in
  (exists result, run.1 = Returned result) /\
  requests run.2 = (requests w ++ [channels_request client limit page])%list /\
  (ListChannelsArgs.limit args = Some (Num 0) -> limit = Num 100).
Proof.
  intros run limit page. subst run limit page.
  unfold handleListChannels. rewrite getChannels_run. cbv zeta.
  split; [|split].
  - destruct (fetch _ _).1 as [message|resp]; simpl; [by eauto|].
    destruct (ok resp); [|by eauto].
    destruct (body_json resp) as [raw|]; [|by eauto].
    destruct (negb _ || negb _); [by eauto|].
    destruct (format_channels _); by eauto.
  - destruct (fetch _ _).1 as [message|resp]; simpl; [done|].
    destruct (ok resp); [|done].
    destruct (body_json resp) as [raw|]; [|done].
    destruct (negb _ || negb _); [done|].
    by destruct (format_channels _).
  - by intros ->.
Qed.

(** A result with [isError] set, a throw, is no success. *)
Ltac no_success :=
  let Hrun := fresh "Hrun" in
  let Herr := fresh "Herr" in
  intros (? & Hrun & Herr); simpl in Hrun;
  try discriminate Hrun; injection Hrun as <-; discriminate Herr.

(** X11: [handleListChannels] reports a success exactly when the
    request is answered with a success status and a decodable body that is
    an array, or an object whose [channels] is an array, with no [null]
    among the items; any other answer gives a result with [isError]. *)
Theorem handleListChannels_success engine_message client args
    (o : fetch_outcome json) rest log :
  let run :=
    handleListChannels engine_message scripted client args
      {| net := o :: rest; requests := log |} in
  (exists result, run.1 = Returned result /\ isError result = false) <->
  (exists resp raw items,
     o = inr resp /\ ok resp = true /\ body_json resp = Some raw /\
     get_field "channels" (wrap_array "channels" raw) = Some (JArray items) /\
     JNull ∉ items).
Proof.
  intros run. subst run. unfold handleListChannels. rewrite getChannels_run.
  cbv zeta. cbn [scripted net fst snd].
  split.
  - destruct o as [message|resp]; [no_success|].
    destruct (ok resp) eqn:Hok; [|no_success].
    destruct (body_json resp) as [raw|] eqn:Hraw; [|no_success].
    destruct (get_field "channels" (wrap_array "channels" raw))
      as [channels|] eqn:Hchannels.
    2:{ cbn [truthy_opt negb]. rewrite orb_true_r. no_success. }
    destruct (negb _ || negb _); [no_success|].
    simpl (default _ _).
    destruct channels as [| | | | items |]; cbn [format_channels];
      try no_success.
    destruct (try_map format_channel items) as [x|formatted] eqn:Hmap;
      [no_success|].
    intros _. exists resp, raw, items. repeat split; try done.
    apply format_channels_items. by eauto.
  - intros (resp & raw & items & -> & Hok & Hraw & Hchannels & Hnull).
    rewrite Hok, Hraw, Hchannels.
    assert (truthy_json (wrap_array "channels" raw) = true) as ->
      by (by destruct raw).
    simpl (default _ _). cbn [truthy_opt truthy_json negb orb format_channels].
    apply format_channels_items in Hnull as [formatted ->]. by eauto.
Qed.

(** X12: when the API answers with a bare array of channels,
    [handleListChannels] returns one formatted channel per item, in the
    order of the array, with [total_count] the length of the array and
    [page] and [per_page] as requested. *)
Theorem handleListChannels_bare_array engine_message client args
    (resp : Response json) items rest log :
  ok resp = true ->
  body_json resp = Some (JArray items) ->
  JNull ∉ items ->
  exists formatted,
    (handleListChannels engine_message scripted client args
       {| net := inr resp :: rest; requests := log |}).1
    = Returned
        {| text :=
             Payload
               {| ListChannelsPayload.channels := formatted;
                  ListChannelsPayload.total_count :=
                    JNumber (Num (Z.of_nat (length items)));
                  ListChannelsPayload.page :=
                    number_or (ListChannelsArgs.page args) (Num 0);
                  ListChannelsPayload.per_page :=
                    number_or (ListChannelsArgs.limit args) (Num 100) |};
           isError := false |}
    /\ Forall2 (fun item channel => format_channel item = inr channel) items formatted.
Proof.
  intros Hok Hraw Hnull.
  apply format_channels_items in Hnull as [formatted Hmap].
  exists formatted. split; [|by apply try_map_inr].
  unfold handleListChannels. rewrite getChannels_run.
  cbv zeta. cbn [scripted net fst snd]. rewrite Hok, Hraw.
  cbn [wrap_array truthy_json get_field assoc truthy_opt negb orb].
  simpl. rewrite Hmap. simpl. do 4 f_equal.
  unfold array_length. by destruct items.
Qed.

Lemma handleListChannels_bare_array_witness :
  let town := JObject [("id", JString "c1"); ("name", JString "town-square")] in
  exists formatted,
    (handleListChannels no_message scripted sample_client
       (ListChannelsArgs.mk (Some (Num 0)) None)
       (start [ok_response (JArray [town; JString "x"])])).1
    = Returned
        {| text :=
             Payload
               {| ListChannelsPayload.channels := formatted;
                  ListChannelsPayload.total_count := JNumber (Num 2);
                  ListChannelsPayload.page := Num 0;
                  ListChannelsPayload.per_page := Num 100 |};
           isError := false |}
    /\ Forall2 (fun item channel => format_channel item = inr channel)
         [town; JString "x"] formatted.
Proof.
  intros town.
  apply (handleListChannels_bare_array no_message sample_client
           (ListChannelsArgs.mk (Some (Num 0)) None)
           (mkResponse 200 "OK" "" (Some (JArray [town; JString "x"])))
           [town; JString "x"] [] []).
  - reflexivity.
  - reflexivity.
  - subst town. rewrite !not_elem_of_cons.
    repeat split; try discriminate. apply not_elem_of_nil.
Defined.

(** X13: a decoded body that is no array and has no truthy [channels]
    (an object without that field, [null], a number, a string) comes out
    of [getChannels] as it is, and [handleListChannels] answers it with the
    error "API response missing channels array", the body attached. *)
Theorem handleListChannels_missing_channels engine_message client args
    (resp : Response json) raw rest log :
  ok resp = true ->
  body_json resp = Some raw ->
  isArray raw = false ->
  truthy_opt truthy_json (get_field "channels" raw) = false ->
  (handleListChannels engine_message scripted client args
     {| net := inr resp :: rest; requests := log |}).1
  = Returned {| text := Failure "API response missing channels array" (Some raw);
                isError := true |}.
Proof.
  intros Hok Hraw Harray Hmissing.
  unfold handleListChannels. rewrite getChannels_run.
  cbv zeta. cbn [scripted net fst snd]. rewrite Hok, Hraw.
  rewrite (wrap_array_not_array _ _ Harray), Hmissing.
  cbn [negb]. by rewrite orb_true_r.
Qed.

Lemma handleListChannels_missing_channels_witness :
  let raw := JObject [("status_code", JNumber (Num 200)); ("channels", JNull)] in
  (handleListChannels no_message scripted sample_client
     (ListChannelsArgs.mk None None) (start [ok_response raw])).1
  = Returned {| text := Failure "API response missing channels array" (Some raw);
                isError := true |}.
Proof.
  intros raw.
  exact (handleListChannels_missing_channels no_message sample_client
           (ListChannelsArgs.mk None None) (mkResponse 200 "OK" "" (Some raw)) raw
           [] [] eq_refl eq_refl eq_refl eq_refl).
Defined.

(** ** The channel history *)

(** X14: a [since_date] the engine cannot read as a date is refused
    before anything is asked of the network: the result is an error that
    names the date, and no request has been issued. *)
Theorem handleGetChannelHistory_invalid_date {W : Type} engine_message
    (Date_getTime : string -> number) Date_toISOString
    (fetch : Request -> W -> fetch_outcome (PostsResponse json) * W)
    client args fuel (w : World W) s :
  GetChannelHistoryArgs.since_date args = Some s ->
  s <> "" ->
  Date_getTime s = NaN ->
  handleGetChannelHistory engine_message Date_getTime Date_toISOString
    fetch client args fuel w
  = (Returned
       {| text :=
            Failure ("Invalid date format: " ++ s
              ++ ". Use ISO 8601 format (e.g., '2025-12-18' or '2025-12-18T10:00:00Z')")
              None;
          isError := true |}, w).
Proof.
  intros Hsince Hs Htime. unfold handleGetChannelHistory, parse_since.
  rewrite Hsince. destruct s; [done|]. cbn [truthy_string]. by rewrite Htime.
Qed.

Lemma handleGetChannelHistory_invalid_date_witness :
  (handleGetChannelHistory no_message no_time no_date scripted sample_client
     (GetChannelHistoryArgs.mk "town-square" None None (Some "yesterday") None None
        (Some true)) 5
     (start [ok_response (sample_page_json 0 3)])).2
  = start [ok_response (sample_page_json 0 3)].
Proof.
  exact (f_equal snd
           (handleGetChannelHistory_invalid_date no_message no_time no_date scripted
              sample_client
              (GetChannelHistoryArgs.mk "town-square" None None (Some "yesterday")
                 None None (Some true)) 5
              (start [ok_response (sample_page_json 0 3)]) "yesterday"
              eq_refl ltac:(discriminate) eq_refl)).
Defined.

(** X15: with [get_all] the arguments [limit] and [page] play no part:
    the call is the same whatever they are, the run is uncapped, and a
    success reports no next or previous page and [null] for [page] and
    [per_page]. *)
Theorem handleGetChannelHistory_get_all {W : Type} engine_message
    Date_getTime Date_toISOString
    (fetch : Request -> W -> fetch_outcome (PostsResponse json) * W)
    client channel_id limit page limit' page' since_date before after fuel
    (w : World W) :
  let handle l p :=
    handleGetChannelHistory engine_message Date_getTime Date_toISOString fetch client
      (GetChannelHistoryArgs.mk channel_id l p since_date before after (Some true))
      fuel w in
  handle limit page = handle limit' page' /\
  forall result payload,
    (handle limit page).1 = Returned result ->
    text result = Payload payload ->
    HistoryPayload.has_next payload = false /\
    HistoryPayload.has_prev payload = false /\
    HistoryPayload.page payload = None /\
    HistoryPayload.per_page payload = None /\
    HistoryFilters.get_all (HistoryPayload.filters payload) = true.
Proof.
  intros handle. subst handle. split; [reflexivity|].
  intros result payload. unfold handleGetChannelHistory.
  cbn [GetChannelHistoryArgs.since_date GetChannelHistoryArgs.get_all].
  simpl (default false _).
  destruct (parse_since _ _) as [x|sinceTimestamp]; simpl.
  { by intros [= <-]. }
  destruct (getAllPostsForChannel _ _ _ _ _ _) as [[response | e |] w'];
    simpl; [| by intros [= <-] | done].
  destruct (try_map _ _); simpl; [by intros [= <-]|].
  by intros [= <-] [= <-].
Qed.

Lemma try_map_succeeds {A B} (f : A -> exception + B) l :
  (exists bs, try_map f l = inr bs) <-> forall a, a ∈ l -> exists b, f a = inr b.
Proof.
  induction l as [|a l IH]; simpl.
  - split; [intros _ a Ha; by apply elem_of_nil in Ha | by eauto].
  - split.
    + intros [bs Hbs] a' Ha'. destruct (f a) as [x|b] eqn:Hf; [done|].
      destruct (try_map f l) as [x|bs'] eqn:Hl; [done|].
      apply elem_of_cons in Ha' as [-> | Ha']; [by eauto|].
      apply (proj1 IH); by eauto.
    + intros Hall. destruct (Hall a) as [b ->]; [by left|].
      destruct (proj2 IH) as [bs ->]; [|by eauto].
      intros a' Ha'. apply Hall. by right.
Qed.

Section HistoryHandler.
Context {W : Type}.
Variable engine_message : exception -> string.
Variable Date_getTime : string -> number.
Variable Date_toISOString : option json -> option string.

(** A post can be formatted when it is there, is not [null], and has a
    valid date. *)
Lemma format_post_succeeds posts id :
  (exists formatted, format_post Date_toISOString posts id = inr formatted) <->
  (exists post, posts !! id = Some post /\ post <> JNull /\
                is_Some (Date_toISOString (get_field "create_at" post))).
Proof.
  unfold format_post. destruct (posts !! id) as [post|].
  2:{ split; [by intros [? ?] | by intros (? & ? & _)]. }
  split.
  - intros [formatted Hf]. exists post.
    destruct post; try done;
      (destruct (Date_toISOString _) eqn:Hdate; [|done]);
      by rewrite ?Hdate; eauto.
  - intros (? & [= <-] & Hnull & [create_at Hdate]).
    destruct post; try done; rewrite Hdate; by eauto.
Qed.

(** What [getPostsForChannel] makes of the outcome of its one request. *)
Lemma getPostsForChannel_run
    (fetch : Request -> W -> fetch_outcome (PostsResponse json) * W)
    client channelId limit page options (w : World W) :
  getPostsForChannel fetch client channelId (Some limit) (Some page) options w
  = let rq := {| req_url := posts_url client channelId limit page options;
                 req_headers := headers client |} in
    (match (fetch rq (net w)).1 with
     | inl message => Thrown (FetchError message)
     | inr resp =>
         if ok resp then
           match body_json resp with
           | Some response => Returned response
           | None => Thrown SyntaxError
           end
         else Thrown (Error ("Failed to get posts: " ++ status_line resp))
     end,
     {| net := (fetch rq (net w)).2; requests := (requests w ++ [rq])%list |}).
Proof.
  unfold getPostsForChannel, bind, do_fetch; simpl.
  destruct (fetch _ _) as [[message|resp] n]; simpl; [done|].
  destruct (ok resp); simpl; [|done].
  unfold read_json. by destruct (body_json resp).
Qed.
End HistoryHandler.

(** X16: without [get_all], and with a date that parses,
    [handleGetChannelHistory] never throws and issues exactly one request,
    for the page [page] of size [limit] (30 and 0 by default): whatever
    [limit] is, [0] included, there is no second request. *)
Theorem handleGetChannelHistory_single_page {W : Type} engine_message
    Date_getTime Date_toISOString
    (fetch : Request -> W -> fetch_outcome (PostsResponse json) * W)
    client args fuel (w : World W) sinceTimestamp :
  default false (GetChannelHistoryArgs.get_all args) = false ->
  parse_since Date_getTime (GetChannelHistoryArgs.since_date args)
  = inr sinceTimestamp ->
  let run :=
    handleGetChannelHistory engine_message Date_getTime Date_toISOString
      fetch client args fuel w in
  (exists result, run.1 = Returned result) /\
  requests run.2
  = (requests w ++
     [{| req_url :=
           posts_url client (GetChannelHistoryArgs.channel_id args)
             (default (Num 30) (GetChannelHistoryArgs.limit args))
             (default (Num 0) (GetChannelHistoryArgs.page args))
             (Some {| PostsOptions.since := sinceTimestamp;
                      PostsOptions.before := GetChannelHistoryArgs.before_post_id args;
                      PostsOptions.after := GetChannelHistoryArgs.after_post_id args |});
         req_headers := headers client |}])%list.
Proof.
  intros Hall Hsince run. subst run. unfold handleGetChannelHistory.
  rewrite Hall, Hsince, getPostsForChannel_run. cbv zeta.
  destruct (fetch _ _).1 as [message|resp]; simpl; [by eauto|].
  destruct (ok resp); [|by eauto].
  destruct (body_json resp) as [response|]; [|by eauto].
  destruct (try_map _ _); by eauto.
Qed.

Lemma handleGetChannelHistory_single_page_witness :
  let run :=
    handleGetChannelHistory no_message any_time any_date scripted sample_client
      (GetChannelHistoryArgs.mk "town-square" (Some (Num 0)) None None None None None) 5
      (start [ok_response (sample_page_json 0 200); ok_response (sample_page_json 200 3)]) in
  (exists result, run.1 = Returned result) /\
  (req_url <$> requests run.2)
  = [{| href := "https://chat.example.org/api/v4/channels/town-square/posts";
        searchParams := [("page", "0"); ("per_page", "0")] |}].
Proof.
  destruct (handleGetChannelHistory_single_page no_message any_time any_date scripted
              sample_client
              (GetChannelHistoryArgs.mk "town-square" (Some (Num 0)) None None None
                 None None) 5
              (start [ok_response (sample_page_json 0 200);
                      ok_response (sample_page_json 200 3)]) None eq_refl eq_refl)
    as [Hresult Hrequests].
  split; [exact Hresult|].
  rewrite Hrequests. vm_compute. reflexivity.
Defined.

(** X17: without [get_all], [handleGetChannelHistory] reports a success
    exactly when the request is answered with a success status and a
    decodable page in which every id of [order] has a post that is not
    [null] and has a valid date; one missing post makes the whole call an
    error.  A success has one formatted post per id of [order]. *)
Theorem handleGetChannelHistory_success engine_message Date_getTime Date_toISOString
    client args fuel (o : fetch_outcome (PostsResponse json)) rest log sinceTimestamp :
  default false (GetChannelHistoryArgs.get_all args) = false ->
  parse_since Date_getTime (GetChannelHistoryArgs.since_date args)
  = inr sinceTimestamp ->
  let run :=
    handleGetChannelHistory engine_message Date_getTime Date_toISOString
      scripted client args fuel {| net := o :: rest; requests := log |} in
  ((exists result, run.1 = Returned result /\ isError result = false) <->
   (exists response,
      outcome_page o = Some response /\
      forall id, id ∈ order response ->
        exists post, posts response !! id = Some post /\ post <> JNull /\
                     is_Some (Date_toISOString (get_field "create_at" post)))) /\
  (forall result payload,
     run.1 = Returned result -> text result = Payload payload ->
     exists response,
       outcome_page o = Some response /\
       length (HistoryPayload.posts payload) = length (order response) /\
       HistoryPayload.total_posts payload
       = Num (Z.of_nat (length (order response))) /\
       HistoryPayload.has_next payload = truthy_string (next_post_id response)).
Proof.
  intros Hall Hsince run. subst run. unfold handleGetChannelHistory.
  rewrite Hall, Hsince, getPostsForChannel_run. cbv zeta.
  cbn [scripted net fst snd]. unfold outcome_page.
  destruct o as [message|resp].
  { split; [split; [no_success | by intros (? & ? & _)] | by intros ? ? [= <-]]. }
  destruct (ok resp).
  2:{ split; [split; [no_success | by intros (? & ? & _)] | by intros ? ? [= <-]]. }
  destruct (body_json resp) as [response|].
  2:{ split; [split; [no_success | by intros (? & ? & _)] | by intros ? ? [= <-]]. }
  destruct (try_map (format_post Date_toISOString (posts response)) (order response))
    as [x|formatted] eqn:Hmap.
  - split; [split; [no_success|] | by intros ? ? [= <-]].
    intros (? & [= <-] & Hposts).
    assert (exists bs, try_map (format_post Date_toISOString (posts response))
                         (order response) = inr bs) as [bs Hbs].
    { apply try_map_succeeds. intros id Hid. apply format_post_succeeds. by eauto. }
    congruence.
  - split.
    + split; [|by eauto]. intros _. exists response. split; [done|].
      intros id Hid. apply format_post_succeeds.
      by apply (proj1 (try_map_succeeds _ _) (ex_intro _ _ Hmap)).
    + intros result payload [= <-] [= <-]. exists response.
      apply try_map_inr, Forall2_length in Hmap.
      cbn. unfold array_length. by rewrite Hmap.
Qed.

Lemma handleGetChannelHistory_success_witness :
  let run :=
    handleGetChannelHistory no_message any_time any_date scripted sample_client
      (GetChannelHistoryArgs.mk "town-square" None None None None None None) 0
      (start [ok_response (sample_page_json 0 3)]) in
  exists result payload,
    run.1 = Returned result /\ text result = Payload payload /\
    HistoryPayload.total_posts payload = Num 3.
Proof.
  intros run.
  destruct (handleGetChannelHistory_success no_message any_time any_date sample_client
              (GetChannelHistoryArgs.mk "town-square" None None None None None None) 0
              (ok_response (sample_page_json 0 3)) [] [] None eq_refl eq_refl)
    as [_ Hshape].
  assert (match run.1 with
          | Returned r => match text r with Payload _ => True | _ => False end
          | _ => False
          end) as Hrun by (vm_compute; exact I).
  destruct run.1 as [result | e |] eqn:Hr; [|done|done].
  destruct (text result) as [payload|] eqn:Ht; [|done].
  exists result, payload. split; [done|]. split; [done|].
  destruct (Hshape result payload Hr Ht) as (response & [= <-] & _ & Htotal & _).
  exact Htotal.
Defined.

(** ** The channels of the current user *)

(** X18: [getMyChannels] treats the answer as [getChannels] does: a bare
    array is wrapped, with its length as [total_count]; any other decoded
    body is returned as it is; and on a non-success status the error
    carries the status code, the status text and the response body. *)
Theorem getMyChannels_normalizes this limit page (resp : Response json) rest log :
  let run :=
    (getMyChannels scripted this limit page
       {| net := inr resp :: rest; requests := log |}).1 in
  (forall items,
     ok resp = true -> body_json resp = Some (JArray items) ->
     exists v,
       run = Returned v /\
       get_field "channels" v = Some (JArray items) /\
       get_field "total_count" v = Some (JNumber (Num (Z.of_nat (length items))))) /\
  (forall raw,
     ok resp = true -> body_json resp = Some raw -> isArray raw = false ->
     run = Returned raw) /\
  (ok resp = false ->
   run = Thrown (Error ("Failed to get user channels: "
                        ++ number_toString (Num (status resp)) ++ " "
                        ++ statusText resp ++ " - " ++ body_text resp))).
Proof.
  intros run. subst run. split; [|split].
  - intros items Hok Hraw. eexists. split; [by apply getMyChannels_ok|]. by split.
  - intros raw Hok Hraw Harray.
    rewrite (getMyChannels_ok _ _ _ _ _ _ raw) by done.
    by rewrite wrap_array_not_array.
  - intros Hok. unfold getMyChannels, try_catch, bind, do_fetch; simpl.
    rewrite Hok. simpl. unfold throw, status_line.
    by rewrite !string_app_assoc.
Qed.

Lemma getMyChannels_normalizes_witness :
  (getMyChannels scripted sample_client None None
     (start [inr (mkResponse 403 "Forbidden" "no session" None)])).1
  = Thrown (Error ("Failed to get user channels: " ++ number_toString (Num 403) ++ " "
                   ++ "Forbidden" ++ " - " ++ "no session")).
Proof.
  exact (proj2 (proj2 (getMyChannels_normalizes sample_client None None
                         (mkResponse 403 "Forbidden" "no session" None) [] []))
           eq_refl).
Defined.

(** ** All the history of a channel *)

Lemma elem_of_concat_map {A B} (f : A -> list B) (l : list A) (b : B) :
  b ∈ concat (map f l) <-> exists a, a ∈ l /\ b ∈ f a.
Proof.
  induction l as [|a l IH]; simpl.
  - split; [intros H; by apply elem_of_nil in H|].
    intros (a & Ha & _). by apply elem_of_nil in Ha.
  - rewrite elem_of_app, IH. split.
    + intros [Hb | (a' & Ha' & Hb)]; [exists a | exists a']; split; try done;
        [by left | by right].
    + intros (a' & Ha' & Hb). apply elem_of_cons in Ha' as [-> | Ha'];
        [by left | right; by eauto].
Qed.

(** X19: with [get_all], over full pages followed by a page that is not
    full, all of them formattable, [handleGetChannelHistory] asks for each
    page once, in order, and returns a success with one formatted post per
    id delivered, whatever [limit] and [page] say ([page_index] below). *)
Theorem handleGetChannelHistory_all_pages engine_message Date_getTime Date_toISOString
    client channel_id limit page_index since_date before after sinceTimestamp
    (fs : list (PostsResponse json)) (s : PostsResponse json) rest fuel :
  parse_since Date_getTime since_date = inr sinceTimestamp ->
  Forall (fun p => length (order p) = Z.to_nat perPage) fs ->
  length (order s) <> Z.to_nat perPage ->
  Forall (formattable Date_toISOString) (fs ++ [s])%list ->
  (length fs < fuel)%nat ->
  let run :=
    handleGetChannelHistory engine_message Date_getTime Date_toISOString
      scripted client
      (GetChannelHistoryArgs.mk channel_id limit page_index since_date before after
         (Some true)) fuel
      (start (map ok_response fs ++ ok_response s :: rest)%list) in
  requests run.2
  = page_requests client channel_id
      (Some (AllPostsOptions.mk sinceTimestamp before after None)) 0 (S (length fs)) /\
  exists payload,
    run.1 = Returned {| text := Payload payload; isError := false |} /\
    length (HistoryPayload.posts payload)
    = length (concat (map order fs) ++ order s)%list.
Proof.
  intros Hsince Hfull Hlast Hgood Hfuel run. subst run.
  unfold handleGetChannelHistory.
  cbn [GetChannelHistoryArgs.since_date GetChannelHistoryArgs.get_all
       GetChannelHistoryArgs.channel_id GetChannelHistoryArgs.before_post_id
       GetChannelHistoryArgs.after_post_id].
  simpl (default false _). rewrite Hsince. cbv zeta.
  set (options := Some (AllPostsOptions.mk sinceTimestamp before after None)).
  unfold getAllPostsForChannel, bind, start.
  replace fuel with (length fs + S (fuel - S (length fs)))%nat by lia.
  rewrite while_loop_full_pages; [|done|done|by simpl].
  set (st := merge_pages _ fs).
  assert (allOrder st = concat (map order fs)) as Horder
    by (unfold st; by rewrite merge_pages_allOrder).
  assert (allPosts st = foldl (fun m p => posts p ∪ m) ∅ fs) as Hposts
    by (unfold st; by rewrite merge_pages_allPosts).
  rewrite while_loop_last_page; [| |done].
  2:{ unfold loop_guard, st. by rewrite merge_pages_hasMore. }
  unfold ret. cbn [posts order slice0 cap].
  assert (page st = Z.of_nat (length fs)) as Hpage
    by (unfold st; by rewrite merge_pages_page).
  set (merged := (fs ++ if bool_decide (order s = []) then [] else [s])%list).
  assert (allOrder (last_page st s) = (concat (map order fs) ++ order s)%list
          /\ allPosts (last_page st s) = foldl (fun m p => posts p ∪ m) ∅ merged)
    as [Hallorder Hallposts].
  { unfold last_page, merged. case_bool_decide as Hempty.
    - rewrite (proj2 (number_seq_length_0 (order s)) Hempty). cbn [allOrder allPosts].
      by rewrite Horder, Hposts, Hempty, !app_nil_r.
    - assert (number_seq (array_length (order s)) (Num 0) = false) as ->
        by (apply not_true_is_false; by rewrite number_seq_length_0).
      cbn [merge_page allOrder allPosts]. rewrite Horder, Hposts. split; [done|].
      by rewrite foldl_app. }
  assert (exists formatted,
            try_map (format_post Date_toISOString (allPosts (last_page st s)))
              (allOrder (last_page st s)) = inr formatted) as [formatted Hmap].
  { apply try_map_succeeds. intros id Hid. apply format_post_succeeds.
    rewrite Hallposts, merged_posts_lookup, lookup_empty.
    assert (exists p, p ∈ merged /\ id ∈ order p) as (p & Hp & Hidp).
    { rewrite Hallorder in Hid. apply elem_of_app in Hid as [Hid | Hid].
      - apply elem_of_concat_map in Hid as (p & Hp & Hidp).
        exists p. split; [|done]. unfold merged. apply elem_of_app. by left.
      - exists s. split; [|done]. unfold merged. apply elem_of_app. right.
        case_bool_decide as Hempty; [rewrite Hempty in Hid; by apply elem_of_nil in Hid|].
        by apply list_elem_of_singleton. }
    assert (Forall (formattable Date_toISOString) merged) as Hmerged.
    { unfold merged. apply Forall_app. apply Forall_app in Hgood as [Hfs Hs].
      split; [done|]. by case_bool_decide. }
    destruct (last (omap (fun p => posts p !! id) merged)) as [post|] eqn:Hpost.
    - exists post. split; [done|].
      apply last_Some_elem_of, list_elem_of_omap in Hpost as (p' & Hp' & Hlookup).
      by apply (proj2 (proj1 (Forall_forall _ _) Hmerged p' Hp') id).
    - apply last_None in Hpost.
      destruct (proj1 (proj1 (Forall_forall _ _) Hmerged p Hp) id Hidp) as [post Hlookup].
      assert (post ∈ omap (fun p => posts p !! id) merged) as Hin
        by (apply list_elem_of_omap; by eauto).
      rewrite Hpost in Hin. by apply elem_of_nil in Hin. }
  change (cap options) with Infinity. cbn [slice0].
  rewrite Hmap. cbn [fst snd requests page]. split.
  - rewrite Hpage, page_requests_snoc. done.
  - eexists. split; [reflexivity|]. cbn [HistoryPayload.posts].
    apply try_map_inr, Forall2_length in Hmap. by rewrite <- Hmap, Hallorder.
Qed.

Lemma handleGetChannelHistory_all_pages_witness :
  let run :=
    handleGetChannelHistory no_message any_time any_date scripted sample_client
      (GetChannelHistoryArgs.mk "town-square" (Some (Num 1)) None None None None
         (Some true)) 3
      (start (map ok_response [sample_page_json 0 200; sample_page_json 200 200] ++
              [ok_response (sample_page_json 400 47)])%list) in
  length (requests run.2) = 3%nat /\
  exists payload,
    run.1 = Returned {| text := Payload payload; isError := false |} /\
    length (HistoryPayload.posts payload) = 447%nat.
Proof.
  destruct (handleGetChannelHistory_all_pages no_message any_time any_date
              sample_client "town-square" (Some (Num 1)) None None None None None
              [sample_page_json 0 200; sample_page_json 200 200]
              (sample_page_json 400 47) [] 3)
    as (Hrequests & payload & Hrun & Hlength).
  - reflexivity.
  - constructor; [|constructor; [|constructor]]; vm_compute; reflexivity.
  - vm_compute. lia.
  - assert (forall k n, formattable any_date (sample_page_json k n)) as Hsample.
    { intros k n. split.
      - intros id Hid. apply elem_of_dom. simpl. rewrite dom_list_to_map_L.
        apply elem_of_list_to_set. rewrite <- list_fmap_compose.
        exact Hid.
      - intros id post Hlookup. split; [|by eexists].
        simpl in Hlookup. apply elem_of_list_to_map_2 in Hlookup.
        apply list_elem_of_fmap in Hlookup as (i & [= _ ->] & _). done. }
    simpl. repeat (constructor; [apply Hsample|]). constructor.
  - simpl. lia.
  - split.
    + exact (eq_trans (f_equal length Hrequests) (page_requests_length _ _ _ _ _)).
    + exists payload. split; [exact Hrun|]. rewrite Hlength. vm_compute. reflexivity.
Defined.
